(** * Progressive 17-step admission search: a shallow embedding

    This development embeds the search core of the service
    [ClickHouseMedicalSearchService] (file
    [new_api/app/services/ClickHouseMedicalSearchService.py]) together with
    the request gate in front of it ([searchSchema.py],
    [MedicalSearchController.py]) and proves properties of the embedded code.

    Conventions of the embedding.
    - Python [str] values are UTF-8 byte strings ([string]); the request
      dictionary [input_data] is a finite map from keys to strings, with the
      two list-valued entries [icd10] and [icd9] kept apart (the request
      schema types every other entry that reaches the service as [str]).
    - The SQL text that each [_step_k] assembles with an f-string is kept as
      a syntax tree ([bexpr], [nexpr], [Query]) whose leaves hold the
      interpolated values.  The tree is what the text denotes as long as the
      interpolated values contain neither a quote nor a backslash
      ([sql_plain], [query_plain], [data_plain]); no escaping exists
      anywhere in the source, so for other values the text denotes another
      statement or none.  Every statement about what a clause accepts or
      what a client returns for it carries this condition.
    - The ClickHouse client is a parameter [client_query]; [None] stands for
      an exception raised by the client.  What is assumed of it is stated as
      [client_honours]: the answer to a query whose pasted values are plain
      is a bounded sub-multiset of the table rows that satisfy the WHERE
      clause, each carrying the [result_step] literal of the query
      ([client_sound] asks the same of every query).  The order inside an
      answer is left to the server.
    - Python's [datetime] parsing and formatting functions are the
      interface [PyDatetime]; the calendar arithmetic on parsed values is
      written out.
    - The driver reads a result tuple at its first and last position only
      ([Row]); [format_results_for_api] is embedded over tuples as lists of
      values of any type ([Api]).
    - The merge of historical items and real-time prices in
      [billing_analysis_search] is embedded from the point where the sales
      items and the pricing answer are at hand ([Billing]); amounts are
      copied, never computed with, and are kept as rationals. *)

From Stdlib Require Import ZArith QArith Qabs Ascii String List Sorting.Sorted.
Set Warnings "-register-all".
From stdpp Require Import base option list gmap strings sets pretty sorting.

Local Open Scope Z_scope.

(** ** Python strings *)

Module Py.

(** [c in s] for a one-character [c]. *)
Fixpoint contains_char (c : ascii) (s : string) : bool :=
  match s with
  | EmptyString => false
  | String d s' => if Ascii.eqb c d then true else contains_char c s'
  end.

(** [s.replace(c, t)] for a one-character [c]. *)
Fixpoint replace_char (c : ascii) (t : string) (s : string) : string :=
  match s with
  | EmptyString => EmptyString
  | String d s' =>
      if Ascii.eqb c d then t +:+ replace_char c t s'
      else String d (replace_char c t s')
  end.

(** The one-byte members of Python's whitespace class ([str.isspace]). *)
Definition is_space (c : ascii) : bool :=
  match c with
  | "009" | "010" | "011" | "012" | "013"
  | "028" | "029" | "030" | "031" | " " => true
  | _ => false
  end%char.

(** Its other members, as UTF-8 byte sequences: U+0085 and U+00A0 take two
    bytes; U+1680, U+2000 to U+200A, U+2028, U+2029, U+202F, U+205F and
    U+3000 take three. *)
Definition is_space2 (c d : ascii) : bool :=
  let c := N_of_ascii c in
  let d := N_of_ascii d in
  ((c =? 194) && ((d =? 133) || (d =? 160)))%N.

Definition is_space3 (c d e : ascii) : bool :=
  let c := N_of_ascii c in
  let d := N_of_ascii d in
  let e := N_of_ascii e in
  (((c =? 225) && (d =? 154) && (e =? 128))
   || ((c =? 226) && (d =? 128)
       && (((128 <=? e) && (e <=? 138))
           || (e =? 168) || (e =? 169) || (e =? 175)))
   || ((c =? 226) && (d =? 129) && (e =? 159))
   || ((c =? 227) && (d =? 128) && (e =? 128)))%N.

(** Removes the whitespace characters at the head of the text; with
    [backwards] the text is read from its end, so that the bytes of a
    character come in the opposite order. *)
Fixpoint lstrip_bytes (backwards : bool) (s : string) : string :=
  match s with
  | EmptyString => EmptyString
  | String c s1 =>
      if is_space c then lstrip_bytes backwards s1
      else
        match s1 with
        | EmptyString => s
        | String d s2 =>
            if (if backwards then is_space2 d c else is_space2 c d)
            then lstrip_bytes backwards s2
            else
              match s2 with
              | EmptyString => s
              | String e s3 =>
                  if (if backwards then is_space3 e d c
                      else is_space3 c d e)
                  then lstrip_bytes backwards s3
                  else s
              end
        end
  end.

(** [s.lstrip()] *)
Definition lstrip (s : string) : string := lstrip_bytes false s.

(** [s.strip()] *)
Definition strip (s : string) : string :=
  String.rev (lstrip_bytes true (String.rev (lstrip s))).

(** Truth value of a [str]. *)
Definition truthy (s : string) : bool :=
  match s with EmptyString => false | _ => true end.

(** [sep.join(l)] *)
Fixpoint join (sep : string) (l : list string) : string :=
  match l with
  | [] => ""
  | [x] => x
  | x :: l' => x +:+ sep +:+ join sep l'
  end.

(** [s.startswith(p)] *)
Fixpoint startswith (p s : string) : bool :=
  match p, s with
  | EmptyString, _ => true
  | String a p', String b s' => Ascii.eqb a b && startswith p' s'
  | String _ _, EmptyString => false
  end.

(** [s.split(c)] for a one-character separator: the pieces between the
    occurrences of [c]; never empty. *)
Fixpoint split_go (c : ascii) (cur : string) (s : string) : list string :=
  match s with
  | EmptyString => [String.rev cur]
  | String d s' =>
      if Ascii.eqb c d then String.rev cur :: split_go c "" s'
      else split_go c (String d cur) s'
  end.
Definition split (c : ascii) (s : string) : list string := split_go c "" s.

(** The value of a decimal digit character, read off its code point. *)
Definition digit (c : ascii) : option Z :=
  let code := Z.of_N (N_of_ascii c) in
  if (48 <=? code) && (code <=? 57) then Some (code - 48) else None.

Fixpoint digits_go (acc : Z) (s : string) : option Z :=
  match s with
  | EmptyString => Some acc
  | String c s' =>
      match digit c with
      | Some d => digits_go (10 * acc + d) s'
      | None => None
      end
  end.

(** A non-empty run of decimal digits. *)
Definition digits (s : string) : option Z :=
  match s with EmptyString => None | _ => digits_go 0 s end.

(** [int(s)] on ASCII text: surrounding whitespace, an optional sign and
    decimal digits; [None] is [ValueError]. *)
Definition int (s : string) : option Z :=
  match strip s with
  | String "+" r => digits r
  | String "-" r => Z.opp <$> digits r
  | r => digits r
  end.

(** [str(n)] for an integer. *)
Definition str_of_Z (n : Z) : string := pretty n.

(** [l[:n]], with Python's reading of a negative bound. *)
Definition slice_to {A} (l : list A) (n : Z) : list A :=
  if 0 <=? n then take (Z.to_nat n) l
  else take (length l - Z.to_nat (- n))%nat l.

End Py.

(** ** Calendar values *)

Record datetime := {
  year : Z; month : Z; day : Z;
  hour : Z; minute : Z; second : Z
}.

(** The interface of Python's [datetime] class that the service uses.
    [None] stands for the [ValueError] raised on unparseable text. *)
Class PyDatetime := {
  fromisoformat : string → option datetime;
  strptime : string → string → option datetime;
  strftime : datetime → string → string
}.

Definition is_leap (y : Z) : bool :=
  (y mod 4 =? 0) && (negb (y mod 100 =? 0) || (y mod 400 =? 0)).

Definition days_before_year (y : Z) : Z :=
  let p := y - 1 in p * 365 + p / 4 - p / 100 + p / 400.

Definition days_in_month (y m : Z) : Z :=
  if m =? 2 then (if is_leap y then 29 else 28)
  else if (m =? 4) || (m =? 6) || (m =? 9) || (m =? 11) then 30
  else 31.

Definition days_before_month (y m : Z) : Z :=
  foldr Z.add 0 (days_in_month y <$> seqZ 1 (m - 1)).

(** [d.date().toordinal()]: day number in the proleptic Gregorian calendar. *)
Definition toordinal (d : datetime) : Z :=
  days_before_year (year d) + days_before_month (year d) (month d) + day d.

(** [(a.date() - b.date()).days] *)
Definition date_diff_days (a b : datetime) : Z := toordinal a - toordinal b.

(** [(m1, d1) < (m2, d2)] on pairs of integers. *)
Definition pair_ltb (p q : Z * Z) : bool :=
  (p.1 <? q.1) || ((p.1 =? q.1) && (p.2 <? q.2)).

(** ** The request dictionary and its normalisation *)

Record InputData := {
  fields : gmap string string;
  icd10 : list string;
  icd9 : list string
}.

(** [input_data.get(k, '')] *)
Definition get (d : InputData) (k : string) : string :=
  default "" (fields d !! k).

(** The value of [calculated_los]: the empty string, or a number of days. *)
Inductive los_value :=
| LosEmpty
| LosDays (n : Z).

Global Instance los_value_eq_dec : EqDecision los_value.
Proof. solve_decision. Defined.

(** [str(calculated_los)] and its interpolation into an f-string. *)
Definition los_str (l : los_value) : string :=
  match l with LosEmpty => "" | LosDays n => Py.str_of_Z n end.

Record ProcessedData := {
  input : InputData;
  calculated_age : Z;
  calculated_los : los_value;
  formatted_admission_date : string;
  formatted_birth_date : string
}.

Section Normalizer.
Context `{PyDatetime}.

(** The local function [parse_datetime] of [_calculate_age_and_los]. *)
Definition parse_datetime (date_str : string) : option datetime :=
  if Py.contains_char "T" date_str || Py.contains_char "Z" date_str
  then fromisoformat (Py.replace_char "Z" "+00:00" date_str)
  else strptime date_str "%Y-%m-%d %H:%M:%S".

(** The body of the [try] block; [None] when any statement raises. *)
Definition calculate_try (input_data : InputData) : option ProcessedData :=
  admission_str ← fields input_data !! "admission_date";
  admission_date ← parse_datetime admission_str;
  birth_str ← fields input_data !! "birthdate";
  birth_date ← strptime birth_str "%Y-%m-%d";
  let age_at_admission := year admission_date - year birth_date in
  let age_at_admission :=
    if pair_ltb (month admission_date, day admission_date)
                (month birth_date, day birth_date)
    then age_at_admission - 1 else age_at_admission in
  length_of_stay ←
    (if negb (Py.truthy (get input_data "discharge_date"))
     then Some LosEmpty
     else discharge_date ← parse_datetime (get input_data "discharge_date");
          Some (LosDays (date_diff_days discharge_date admission_date)));
  Some {| input := input_data;
          calculated_age := age_at_admission;
          calculated_los := length_of_stay;
          formatted_admission_date :=
            strftime admission_date "%Y-%m-%d %H:%M:%S";
          formatted_birth_date := strftime birth_date "%Y-%m-%d" |}.

Definition _calculate_age_and_los (input_data : InputData) : ProcessedData :=
  match calculate_try input_data with
  | Some processed_data => processed_data
  | None =>
      {| input := input_data;
         calculated_age := 0;
         calculated_los := LosEmpty;
         formatted_admission_date := get input_data "admission_date";
         formatted_birth_date := get input_data "birthdate" |}
  end.

End Normalizer.

(** ** The admission table and the SQL fragments the service emits *)

(** Text columns of the admission table that the queries mention. *)
Inductive column :=
| AdmissionTypeName | OrganizationCode | Sex | PrimaryDoctor | Specialty
| Region | Archetype | DiseaseClassification | ProcedureClassification
| PayerName | PayerType | LengthOfStay | AnesthesiaDoctor | AnesthesiaType.

Global Instance column_eq_dec : EqDecision column.
Proof. solve_decision. Defined.

(** One stored row: the identifier (first column of the table) and the text
    columns. *)
Record Admission := {
  AdmissionId : Z;
  col : column → string
}.


Module Sql.

(** [f] holds of [s] or of one of its proper suffixes. *)
Definition any_suffix (f : string → bool) : string → bool :=
  fix go (s : string) : bool :=
    f s || match s with EmptyString => false | String _ t => go t end.

(** [s LIKE p] for a pattern without backslash: [%] stands for any run of
    characters, [_] for any single character, every other character for
    itself.  ClickHouse reads a backslash in a pattern as an escape
    character; such patterns are not given a meaning here, and the
    statements about what a pattern matches are made for [sql_plain]
    values. *)
Fixpoint like (p s : string) {struct p} : bool :=
  match p with
  | EmptyString => match s with EmptyString => true | _ => false end
  | String c p' =>
      if Ascii.eqb c "%" then any_suffix (like p') s
      else
        match s with
        | EmptyString => false
        | String d s' => (Ascii.eqb c "_" || Ascii.eqb c d) && like p' s'
        end
  end.

Definition int32_min : Z := - 2 ^ 31.
Definition int32_max : Z := 2 ^ 31 - 1.

(** [toInt32OrZero(s)]: the number written in [s] when [s] is an optionally
    signed decimal numeral in the Int32 range, 0 otherwise. *)
Definition toInt32OrZero (s : string) : Z :=
  let parsed :=
    match s with
    | String "-" r => Z.opp <$> Py.digits r
    | String "+" r => Py.digits r
    | r => Py.digits r
    end in
  match parsed with
  | Some n => if (int32_min <=? n) && (n <=? int32_max) then n else 0
  | None => 0
  end.

(** String-valued expressions. *)
Inductive sexpr :=
| XCol (c : column)
| XReplace (s : sexpr) (old : ascii) (new : string).

(** Numeric and boolean expressions. *)
Inductive nexpr :=
| NLit (q : Q)
| NLength (s : sexpr)
| NToInt32OrZero (s : sexpr)
| NAdd (a b : nexpr)
| NSub (a b : nexpr)
| NAbs (a : nexpr)
| NCase (p : bexpr) (a b : nexpr)
with bexpr :=
| BTrue
| BEq (c : column) (v : string)
| BLike (c : column) (pat : string)
| BGt (a b : nexpr)
| BOr (ps : list bexpr)
| BNotIn (ids : gset Z).

Fixpoint eval_s (e : sexpr) (r : Admission) : string :=
  match e with
  | XCol c => col r c
  | XReplace s old new => Py.replace_char old new (eval_s s r)
  end.

Fixpoint eval_n (e : nexpr) (r : Admission) : Q :=
  match e with
  | NLit q => q
  | NLength s => inject_Z (Z.of_nat (String.length (eval_s s r)))
  | NToInt32OrZero s => inject_Z (toInt32OrZero (eval_s s r))
  | NAdd a b => eval_n a r + eval_n b r
  | NSub a b => eval_n a r - eval_n b r
  | NAbs a => Qabs (eval_n a r)
  | NCase p a b => if eval_b p r then eval_n a r else eval_n b r
  end%Q
with eval_b (p : bexpr) (r : Admission) : bool :=
  match p with
  | BTrue => true
  | BEq c v => bool_decide (col r c = v)
  | BLike c pat => like pat (col r c)
  | BGt a b => negb (Qle_bool (eval_n a r) (eval_n b r))
  | BOr ps => existsb (λ q, eval_b q r) ps
  | BNotIn ids => bool_decide (AdmissionId r ∉ ids)
  end.

(** A WHERE clause: the conjunction of its conditions. *)
Definition eval_where (conds : list bexpr) (r : Admission) : bool :=
  forallb (λ p, eval_b p r) conds.

Inductive direction := ASC | DESC.

(** An item of the SELECT list after [*]. *)
Inductive select_item :=
| SelAgeDiff (birth : string)
| SelDateDiff (admitted : string)
| SelExpr (name : string) (e : nexpr).

(** A stage query.  [q_step] is the number in the ['STEP_k' as result_step]
    literal that closes the SELECT list. *)
Record Query := {
  q_step : nat;
  q_select : list select_item;
  q_where : list bexpr;
  q_order_by : list (string * direction);
  q_limit : nat
}.

(** *** Pasted values

    The f-strings paste every value between single quotes as it is.  The
    tree above is what the text denotes when no pasted value holds a quote
    or a backslash: a quote ends the literal, and both the literal and a
    LIKE pattern take the backslash for an escape character.  [sql_plain]
    says that a value holds neither; the statements about what a clause
    accepts are made for such values. *)
Definition sql_plain (v : string) : bool :=
  negb (Py.contains_char "039" v) && negb (Py.contains_char "092" v).

Fixpoint plain_s (e : sexpr) : bool :=
  match e with
  | XCol _ => true
  | XReplace s old new => plain_s s && sql_plain (String old new)
  end.

Fixpoint plain_n (e : nexpr) : bool :=
  match e with
  | NLit _ => true
  | NLength s | NToInt32OrZero s => plain_s s
  | NAdd a b | NSub a b => plain_n a && plain_n b
  | NAbs a => plain_n a
  | NCase p a b => plain_b p && plain_n a && plain_n b
  end
with plain_b (p : bexpr) : bool :=
  match p with
  | BTrue | BNotIn _ => true
  | BEq _ v => sql_plain v
  | BLike _ pat => sql_plain pat
  | BGt a b => plain_n a && plain_n b
  | BOr ps => forallb plain_b ps
  end.

Definition item_plain (item : select_item) : bool :=
  match item with
  | SelAgeDiff birth => sql_plain birth
  | SelDateDiff admitted => sql_plain admitted
  | SelExpr _ e => plain_n e
  end.

(** Every value pasted into the query is plain. *)
Definition query_plain (q : Query) : bool :=
  forallb item_plain (q_select q) && forallb plain_b (q_where q).

End Sql.
Export Sql.

(** ** Building the stage queries *)

(** The [step_type] argument of [_calculate_icd_scores]. *)
Inductive step_type :=
| exact | partial | mixed | icd9_only_exact | icd9_only_partial.

(** [" + ".join(terms)] as the sum SQL reads it. *)
Definition sum_join (terms : list nexpr) : nexpr :=
  match terms with
  | [] => NLit 0
  | t :: ts => fold_left NAdd ts t
  end.

(** The [CASE WHEN f LIKE '%code%' THEN 1 ELSE 0 END] summand. *)
Definition like_case (field_name : column) (code : string) : nexpr :=
  NCase (BLike field_name ("%" +:+ code +:+ "%")) (NLit 1) (NLit 0).

(** [CASE WHEN length(f) - length(replace(f, ';', '')) + 1 > n THEN -0.1
    ELSE 0 END] *)
Definition code_count_penalty (field_name : column) (n : nat) : nexpr :=
  NCase
    (BGt (NAdd (NSub (NLength (XCol field_name))
                     (NLength (XReplace (XCol field_name) ";" "")))
               (NLit 1))
         (NLit (inject_Z (Z.of_nat n))))
    (NLit (- (1 # 10))) (NLit 0).

Definition build_enhanced_score (codes : list string) (field_name : column)
    : nexpr :=
  match codes with
  | [] => NLit 0
  | _ =>
      let base_score := sum_join (like_case field_name <$> codes) in
      let input_code_count := length codes in
      NAdd base_score (code_count_penalty field_name input_code_count)
  end.

Definition build_exact_codes_string (codes : list string) : string :=
  match codes with
  | [] => ""
  | _ => Py.join "; " codes
  end.

(** [f = '<joined codes>'], or [1=1] for an empty list.  The joined codes
    are pasted between the quotes as they are; the comparison with the
    literal is what the text denotes for [sql_plain] codes. *)
Definition exact_filter (field_name : column) (codes : list string) : bexpr :=
  match codes with
  | [] => BTrue
  | _ => BEq field_name (build_exact_codes_string codes)
  end.

(** [(f LIKE '%c1%' OR f LIKE '%c2%' ...)], or [1=1] for an empty list.
    Each code is pasted into its pattern as it is; the disjunction of
    patterns is what the text denotes for [sql_plain] codes. *)
Definition partial_filter (field_name : column) (codes : list string) : bexpr :=
  match codes with
  | [] => BTrue
  | _ => BOr ((λ code, BLike field_name ("%" +:+ code +:+ "%")) <$> codes)
  end.

(** ["1" if codes else "0"] *)
Definition fixed_score (codes : list string) : nexpr :=
  match codes with [] => NLit 0 | _ => NLit 1 end.

(** Returns [(icd10_filter, icd9_filter, icd10_score, icd9_score)]. *)
Definition _calculate_icd_scores (input_data : InputData) (t : step_type)
    : bexpr * bexpr * nexpr * nexpr :=
  let icd10_codes := icd10 input_data in
  let icd9_codes := icd9 input_data in
  match t with
  | exact =>
      (exact_filter DiseaseClassification icd10_codes,
       exact_filter ProcedureClassification icd9_codes,
       fixed_score icd10_codes, fixed_score icd9_codes)
  | partial =>
      (partial_filter DiseaseClassification icd10_codes,
       partial_filter ProcedureClassification icd9_codes,
       build_enhanced_score icd10_codes DiseaseClassification,
       build_enhanced_score icd9_codes ProcedureClassification)
  | mixed =>
      (partial_filter DiseaseClassification icd10_codes,
       exact_filter ProcedureClassification icd9_codes,
       build_enhanced_score icd10_codes DiseaseClassification,
       build_enhanced_score icd9_codes ProcedureClassification)
  | icd9_only_exact =>
      (BTrue, exact_filter ProcedureClassification icd9_codes,
       NLit 0, fixed_score icd9_codes)
  | icd9_only_partial =>
      (BTrue, partial_filter ProcedureClassification icd9_codes,
       NLit 0, build_enhanced_score icd9_codes ProcedureClassification)
  end.

Definition icd10_filter (d : InputData) (t : step_type) : bexpr :=
  (_calculate_icd_scores d t).1.1.1.
Definition icd9_filter (d : InputData) (t : step_type) : bexpr :=
  (_calculate_icd_scores d t).1.1.2.
Definition icd10_score (d : InputData) (t : step_type) : nexpr :=
  (_calculate_icd_scores d t).1.2.
Definition icd9_score (d : InputData) (t : step_type) : nexpr :=
  (_calculate_icd_scores d t).2.

(** The [los_diff] item of the SELECT list. *)
Definition _get_los_diff_calculation (data : ProcessedData) : select_item :=
  match calculated_los data with
  | LosEmpty => SelExpr "los_diff" (NLit 0)
  | LosDays n =>
      SelExpr "los_diff"
        (NAbs (NSub (NToInt32OrZero (XCol LengthOfStay)) (NLit (inject_Z n))))
  end.

(** [AND AdmissionId NOT IN (...)], or nothing while no identifier has been
    found. *)
Definition _get_exclusion_clause (found_admission_ids : gset Z) : list bexpr :=
  if decide (found_admission_ids = ∅) then []
  else [BNotIn found_admission_ids].

(** [None] is the empty string, a condition that is left out.  The value
    is pasted as it is, as in [eq_field]. *)
Definition _build_condition (field_name : column) (value : string)
    : option bexpr :=
  if negb (Py.truthy value) || negb (Py.truthy (Py.strip value)) then None
  else Some (BEq field_name value).

Definition _build_conditions (conditions : list (option bexpr)) : list bexpr :=
  omap id conditions.

(** *** The seventeen stages *)

Section Steps.
Variable data : ProcessedData.
Variable found : gset Z.

Let d := input data.

Definition age_diff : select_item := SelAgeDiff (formatted_birth_date data).
Definition date_diff : select_item :=
  SelDateDiff (formatted_admission_date data).
Definition los_diff : select_item := _get_los_diff_calculation data.

(** [CASE WHEN c = '<value of key>' THEN 0 ELSE 1 END as name] *)
Definition priority (name : string) (c : column) (key : string)
    : select_item :=
  SelExpr name (NCase (BEq c (get d key)) (NLit 0) (NLit 1)).

(** [c = '<value of key>'], interpolated whatever the value is and pasted
    as it is: the comparison with the literal is what the text denotes for
    a [sql_plain] value. *)
Definition eq_field (c : column) (key : string) : bexpr :=
  BEq c (get d key).

Definition exclusion : list bexpr := _get_exclusion_clause found.

Definition gender_priority := priority "gender_priority" Sex "gender".
Definition admission_type_priority :=
  priority "admission_type_priority" AdmissionTypeName "admission_type".
Definition doctor_priority :=
  priority "doctor_priority" PrimaryDoctor "primary_doctor".
Definition payer_name_priority :=
  priority "payer_name_priority" PayerName "payer_name".
Definition payer_type_priority :=
  priority "payer_type_priority" PayerType "payer_type".
Definition hospital_priority :=
  priority "hospital_priority" OrganizationCode "hospital_code".
Definition region_priority :=
  priority "region_priority" Region "hospital_region".
Definition archetype_priority :=
  priority "archetype_priority" Archetype "archetype".

Definition asc (names : list string) : list (string * direction) :=
  (λ n, (n, ASC)) <$> names.

Definition _step_1 : Query :=
  let conditions :=
    [ Some (icd10_filter d exact);
      Some (icd9_filter d exact);
      _build_condition OrganizationCode (get d "hospital_code");
      _build_condition PayerName (get d "payer_name");
      _build_condition PrimaryDoctor (get d "primary_doctor");
      _build_condition LengthOfStay (los_str (calculated_los data));
      _build_condition AdmissionTypeName (get d "admission_type");
      _build_condition Sex (get d "gender");
      _build_condition AnesthesiaDoctor (get d "anesthesia_doctor");
      _build_condition AnesthesiaType (get d "anesthesia_type") ] in
  {| q_step := 1;
     q_select :=
       [ SelExpr "icd10_match_count"
           (NLit (inject_Z (Z.of_nat (length (icd10 d)))));
         SelExpr "icd9_match_count"
           (NLit (inject_Z (Z.of_nat (length (icd9 d)))));
         age_diff; date_diff ];
     q_where := _build_conditions conditions;
     q_order_by := asc ["age_diff"; "date_diff"];
     q_limit := 50 |}.

Definition _step_2 : Query :=
  {| q_step := 2;
     q_select := [age_diff; date_diff];
     q_where :=
       [ icd10_filter d exact; icd9_filter d exact;
         eq_field OrganizationCode "hospital_code";
         eq_field PayerName "payer_name";
         eq_field PrimaryDoctor "primary_doctor";
         BEq LengthOfStay (los_str (calculated_los data));
         eq_field AdmissionTypeName "admission_type";
         eq_field Sex "gender";
         eq_field AnesthesiaType "anesthesia_type" ] ++ exclusion;
     q_order_by := asc ["age_diff"; "date_diff"];
     q_limit := 50 |}.

Definition _step_3 : Query :=
  {| q_step := 3;
     q_select := [age_diff; date_diff];
     q_where :=
       [ icd10_filter d exact; icd9_filter d exact;
         eq_field OrganizationCode "hospital_code";
         eq_field PayerName "payer_name";
         eq_field PrimaryDoctor "primary_doctor";
         BEq LengthOfStay (los_str (calculated_los data));
         eq_field AdmissionTypeName "admission_type";
         eq_field Sex "gender" ] ++ exclusion;
     q_order_by := asc ["age_diff"; "date_diff"];
     q_limit := 50 |}.

Definition _step_4 : Query :=
  {| q_step := 4;
     q_select := [age_diff; date_diff];
     q_where :=
       [ icd10_filter d exact; icd9_filter d exact;
         eq_field OrganizationCode "hospital_code";
         eq_field PayerName "payer_name";
         eq_field PrimaryDoctor "primary_doctor";
         BEq LengthOfStay (los_str (calculated_los data));
         eq_field AdmissionTypeName "admission_type" ] ++ exclusion;
     q_order_by := asc ["age_diff"; "date_diff"];
     q_limit := 50 |}.

Definition _step_5 : Query :=
  {| q_step := 5;
     q_select := [age_diff; date_diff; los_diff; gender_priority];
     q_where :=
       [ icd10_filter d exact; icd9_filter d exact;
         eq_field OrganizationCode "hospital_code";
         eq_field PayerName "payer_name";
         eq_field PrimaryDoctor "primary_doctor" ] ++ exclusion;
     q_order_by :=
       asc ["gender_priority"; "age_diff"; "los_diff"; "date_diff"];
     q_limit := 50 |}.

Definition _step_6 : Query :=
  {| q_step := 6;
     q_select :=
       [ age_diff; date_diff; los_diff;
         admission_type_priority; gender_priority ];
     q_where :=
       [ icd10_filter d exact; icd9_filter d exact;
         eq_field OrganizationCode "hospital_code";
         eq_field PayerName "payer_name";
         eq_field PrimaryDoctor "primary_doctor" ] ++ exclusion;
     q_order_by :=
       asc [ "admission_type_priority"; "gender_priority";
             "age_diff"; "los_diff"; "date_diff" ];
     q_limit := 50 |}.

Definition _step_7 : Query :=
  {| q_step := 7;
     q_select :=
       [ age_diff; date_diff; los_diff;
         admission_type_priority; gender_priority ];
     q_where :=
       [ icd10_filter d exact; icd9_filter d exact;
         eq_field OrganizationCode "hospital_code";
         eq_field PayerName "payer_name";
         eq_field Specialty "doctor_specialty" ] ++ exclusion;
     q_order_by :=
       asc [ "admission_type_priority"; "gender_priority";
             "age_diff"; "los_diff"; "date_diff" ];
     q_limit := 50 |}.

Definition _step_8 : Query :=
  {| q_step := 8;
     q_select :=
       [ age_diff; date_diff; los_diff;
         admission_type_priority; gender_priority ];
     q_where :=
       [ icd10_filter d exact; icd9_filter d exact;
         eq_field OrganizationCode "hospital_code";
         eq_field PayerName "payer_name" ] ++ exclusion;
     q_order_by :=
       asc [ "admission_type_priority"; "gender_priority";
             "age_diff"; "los_diff"; "date_diff" ];
     q_limit := 50 |}.

Definition _step_9 : Query :=
  {| q_step := 9;
     q_select :=
       [ age_diff; date_diff; los_diff; doctor_priority;
         admission_type_priority; gender_priority ];
     q_where :=
       [ icd10_filter d exact; icd9_filter d exact;
         eq_field OrganizationCode "hospital_code";
         eq_field PayerType "payer_type" ] ++ exclusion;
     q_order_by :=
       asc [ "doctor_priority"; "admission_type_priority";
             "gender_priority"; "age_diff"; "los_diff"; "date_diff" ];
     q_limit := 50 |}.

Definition _step_10 : Query :=
  {| q_step := 10;
     q_select :=
       [ age_diff; date_diff; los_diff; doctor_priority;
         admission_type_priority; gender_priority ];
     q_where :=
       [ icd10_filter d exact; icd9_filter d exact;
         eq_field OrganizationCode "hospital_code" ] ++ exclusion;
     q_order_by :=
       asc [ "doctor_priority"; "admission_type_priority";
             "gender_priority"; "age_diff"; "los_diff"; "date_diff" ];
     q_limit := 50 |}.

Definition _step_11 : Query :=
  {| q_step := 11;
     q_select :=
       [ age_diff; date_diff; los_diff;
         payer_name_priority; payer_type_priority; doctor_priority;
         admission_type_priority; gender_priority ];
     q_where :=
       [ icd10_filter d exact; icd9_filter d exact;
         eq_field Archetype "archetype" ] ++ exclusion;
     q_order_by :=
       asc [ "payer_name_priority"; "payer_type_priority";
             "doctor_priority"; "admission_type_priority";
             "gender_priority"; "age_diff"; "los_diff"; "date_diff" ];
     q_limit := 50 |}.

Definition _step_12 : Query :=
  {| q_step := 12;
     q_select :=
       [ age_diff; date_diff; los_diff; doctor_priority;
         admission_type_priority; gender_priority ];
     q_where :=
       [ icd10_filter d exact; icd9_filter d exact;
         eq_field Archetype "archetype" ] ++ exclusion;
     q_order_by :=
       asc [ "doctor_priority"; "admission_type_priority";
             "gender_priority"; "age_diff"; "los_diff"; "date_diff" ];
     q_limit := 50 |}.

Definition _step_13 : Query :=
  {| q_step := 13;
     q_select :=
       [ age_diff; date_diff; los_diff; doctor_priority;
         admission_type_priority; gender_priority ];
     q_where :=
       [ icd10_filter d exact; icd9_filter d exact;
         eq_field Region "hospital_region" ] ++ exclusion;
     q_order_by :=
       asc [ "doctor_priority"; "admission_type_priority";
             "gender_priority"; "age_diff"; "los_diff"; "date_diff" ];
     q_limit := 50 |}.

Definition _step_14 : Query :=
  {| q_step := 14;
     q_select :=
       [ age_diff; date_diff; los_diff;
         hospital_priority; region_priority; archetype_priority;
         doctor_priority; admission_type_priority; gender_priority ];
     q_where := [icd10_filter d exact; icd9_filter d exact] ++ exclusion;
     q_order_by :=
       asc [ "hospital_priority"; "region_priority"; "archetype_priority";
             "doctor_priority"; "admission_type_priority";
             "gender_priority"; "age_diff"; "los_diff"; "date_diff" ];
     q_limit := 50 |}.

Definition _step_15 : Query :=
  {| q_step := 15;
     q_select :=
       [ SelExpr "icd10_match_count" (icd10_score d mixed);
         SelExpr "icd9_match_count" (icd9_score d mixed);
         age_diff; date_diff; los_diff ];
     q_where := [icd10_filter d mixed; icd9_filter d mixed] ++ exclusion;
     q_order_by :=
       [("icd9_match_count", DESC); ("icd10_match_count", DESC)]
       ++ asc ["age_diff"; "los_diff"; "date_diff"];
     q_limit := 50 |}.

Definition _step_16 : Query :=
  {| q_step := 16;
     q_select :=
       [ SelExpr "icd9_match_count" (icd9_score d icd9_only_exact);
         age_diff; date_diff; los_diff ];
     q_where := [icd9_filter d icd9_only_exact] ++ exclusion;
     q_order_by :=
       [("icd9_match_count", DESC)]
       ++ asc ["age_diff"; "los_diff"; "date_diff"];
     q_limit := 50 |}.

Definition _step_17 : Query :=
  {| q_step := 17;
     q_select :=
       [ SelExpr "icd9_match_count" (icd9_score d icd9_only_partial);
         age_diff; date_diff; los_diff ];
     q_where := [icd9_filter d icd9_only_partial] ++ exclusion;
     q_order_by :=
       [("icd9_match_count", DESC)]
       ++ asc ["age_diff"; "los_diff"; "date_diff"];
     q_limit := 50 |}.

End Steps.

(** The list [steps] of [search_similar_admissions]; each entry is given the
    normalised request and the current [found_admission_ids], which
    [_step_1] does not read. *)
Definition steps : list (ProcessedData → gset Z → Query) :=
  [ (λ data _, _step_1 data);
    _step_2; _step_3; _step_4; _step_5; _step_6; _step_7; _step_8;
    _step_9; _step_10; _step_11; _step_12; _step_13; _step_14; _step_15;
    _step_16; _step_17 ].

(** ** Result rows and the relaxation driver *)

(** A result tuple: the stored row (whose first column is [AdmissionId])
    followed by the computed columns, the last of which is [result_step].
    The driver reads only the first and the last position. *)
Record Row := {
  row_base : Admission;
  result_step : string
}.

(** [result[0]] *)
Definition row_id (r : Row) : Z := AdmissionId (row_base r).

(** The literal ['STEP_k'] of stage [k]. *)
Definition step_tag (k : nat) : string := "STEP_" +:+ pretty k.

(** The sort key of the final sort. *)
Definition get_step_number (result : Row) : Z :=
  let step_str := result_step result in
  if Py.startswith "STEP_" step_str then
    match Py.split "_" step_str !! 1%nat with
    | Some t => default 999 (Py.int t)
    | None => 999
    end
  else 999.

(** [l.sort(key=key)]: Python's sort is stable and ascending; the result of
    a stable sort does not depend on the algorithm, here insertion from the
    right. *)
Fixpoint insert_by {A} (key : A → Z) (x : A) (l : list A) : list A :=
  match l with
  | [] => [x]
  | y :: l' => if key x <=? key y then x :: l else y :: insert_by key x l'
  end.

Definition sort_by {A} (key : A → Z) (l : list A) : list A :=
  foldr (insert_by key) [] l.

(** The two attributes the search resets and fills, and the queries handed
    to the client so far. *)
Record SearchState := {
  found_admission_ids : gset Z;
  results : list Row;
  issued : list Query
}.

Definition initial_state : SearchState :=
  {| found_admission_ids := ∅; results := []; issued := [] |}.

Section Driver.
Context `{PyDatetime}.
Variable client_query : Query → option (list Row).

(** An exception of the client is logged and turned into no rows. *)
Definition _execute_query (query : Query) : list Row :=
  match client_query query with
  | Some result_rows => result_rows
  | None => []
  end.

(** One iteration of the loop body past the [break] test. *)
Definition run_step (data : ProcessedData)
    (step_func : ProcessedData → gset Z → Query) (st : SearchState)
    : SearchState :=
  let query := step_func data (found_admission_ids st) in
  let step_results := _execute_query query in
  match step_results with
  | [] =>
      {| found_admission_ids := found_admission_ids st;
         results := results st;
         issued := issued st ++ [query] |}
  | _ =>
      {| found_admission_ids :=
           found_admission_ids st ∪ list_to_set (row_id <$> step_results);
         results := results st ++ step_results;
         issued := issued st ++ [query] |}
  end.

(** The [for] loop over the remaining step functions. *)
Fixpoint run_steps (max_results : Z) (data : ProcessedData)
    (fs : list (ProcessedData → gset Z → Query)) (st : SearchState)
    : SearchState :=
  match fs with
  | [] => st
  | step_func :: fs' =>
      if max_results <=? Z.of_nat (length (results st)) then st
      else run_steps max_results data fs' (run_step data step_func st)
  end.

Definition final_state (input_data : InputData) (max_results : Z)
    : SearchState :=
  run_steps max_results (_calculate_age_and_los input_data) steps
    initial_state.

Definition search_similar_admissions (input_data : InputData)
    (max_results : Z) : list Row :=
  let st := final_state input_data max_results in
  let final_results := Py.slice_to (results st) max_results in
  sort_by get_step_number final_results.

(** The queries the client received during one search, in order. *)
Definition search_trace (input_data : InputData) (max_results : Z)
    : list Query :=
  issued (final_state input_data max_results).

(** [self.results] when the loop ends. *)
Definition accumulated (input_data : InputData) (max_results : Z)
    : list Row :=
  results (final_state input_data max_results).

(** The rows gathered by the first [k] queries of a trace. *)
Definition rows_before (trace : list Query) (k : nat) : list Row :=
  concat (_execute_query <$> take k trace).

End Driver.

(** ** What is assumed of the ClickHouse client *)

Definition matching (q : Query) (tbl : list Admission) : list Admission :=
  filter (λ a, eval_where (q_where q) a = true) tbl.

Definition answers (tbl : list Admission) (q : Query) (rows : list Row)
    : Prop :=
  (row_base <$> rows) ⊆+ matching q tbl
  ∧ Forall (λ r, result_step r = step_tag (q_step q)) rows
  ∧ (length rows ≤ q_limit q)%nat.

Definition client_sound (tbl : list Admission)
    (client_query : Query → option (list Row)) : Prop :=
  ∀ q rows, client_query q = Some rows → answers tbl q rows.

(** The same, asked of the answers to queries whose pasted values are
    plain only: for other queries the tree is not what the text denotes,
    and nothing is assumed of the answer. *)
Definition client_honours (tbl : list Admission)
    (client_query : Query → option (list Row)) : Prop :=
  ∀ q rows, query_plain q = true → client_query q = Some rows →
            answers tbl q rows.

(** A client that scans a table: the matching rows in table order, cut at
    the limit; it raises on the steps listed in [failing]. *)
Definition scan_client (failing : list nat) (tbl : list Admission)
    (q : Query) : option (list Row) :=
  if bool_decide (q_step q ∈ failing) then None
  else Some ((λ a, {| row_base := a; result_step := step_tag (q_step q) |})
               <$> take (q_limit q) (matching q tbl)).

(** ** A reference instance of the [datetime] interface

    It reads and writes the canonical, zero-padded forms only:
    [YYYY-MM-DD], [YYYY-MM-DD HH:MM:SS] and, for [fromisoformat],
    [YYYY-MM-DD], optionally followed by [THH:MM:SS] and a [+HH:MM] or
    [-HH:MM] offset.  On these texts Python returns the same fields. *)

Module Canonical.

(** The number written in the [len] characters of [s] from [pos] on. *)
Definition num (s : string) (pos len : nat) : option Z :=
  let t := String.substring pos len s in
  if bool_decide (String.length t = len) then Py.digits t else None.

Definition char_at (s : string) (pos : nat) (c : ascii) : bool :=
  bool_decide (String.get pos s = Some c).

Definition between (lo x hi : Z) : bool := (lo <=? x) && (x <=? hi).

Definition read_date (s : string) : option (Z * Z * Z) :=
  y ← num s 0 4; m ← num s 5 2; d ← num s 8 2;
  if char_at s 4 "-" && char_at s 7 "-" && between 1 y 9999
     && between 1 m 12 && between 1 d (days_in_month y m)
  then Some (y, m, d) else None.

Definition read_time (s : string) : option (Z * Z * Z) :=
  h ← num s 11 2; mi ← num s 14 2; se ← num s 17 2;
  if char_at s 13 ":" && char_at s 16 ":" && between 0 h 23
     && between 0 mi 59 && between 0 se 59
  then Some (h, mi, se) else None.

Definition read_offset (s : string) : bool :=
  match num s 20 2, num s 23 2 with
  | Some h, Some mi =>
      (char_at s 19 "+" || char_at s 19 "-") && char_at s 22 ":"
      && between 0 h 23 && between 0 mi 59
  | _, _ => false
  end.

Definition mk (dp tp : Z * Z * Z) : datetime :=
  {| year := dp.1.1; month := dp.1.2; day := dp.2;
     hour := tp.1.1; minute := tp.1.2; second := tp.2 |}.

Definition read_strptime (s fmt : string) : option datetime :=
  if bool_decide (fmt = "%Y-%m-%d") then
    dp ← read_date s;
    if bool_decide (String.length s = 10%nat) then Some (mk dp (0, 0, 0))
    else None
  else if bool_decide (fmt = "%Y-%m-%d %H:%M:%S") then
    dp ← read_date s; tp ← read_time s;
    if bool_decide (String.length s = 19%nat) && char_at s 10 " "
    then Some (mk dp tp) else None
  else None.

Definition read_iso (s : string) : option datetime :=
  dp ← read_date s;
  if bool_decide (String.length s = 10%nat) then Some (mk dp (0, 0, 0))
  else
    tp ← read_time s;
    if char_at s 10 "T"
       && (bool_decide (String.length s = 19%nat)
           || (bool_decide (String.length s = 25%nat) && read_offset s))
    then Some (mk dp tp) else None.

(** [n] in decimal, padded with zeros to [w] characters. *)
Definition pad (w : nat) (n : Z) : string :=
  let t := Py.str_of_Z n in
  String.concat "" (replicate (w - String.length t) "0") +:+ t.

Definition write (d : datetime) (fmt : string) : string :=
  let date_part :=
    pad 4 (year d) +:+ "-" +:+ pad 2 (month d) +:+ "-" +:+ pad 2 (day d) in
  if bool_decide (fmt = "%Y-%m-%d") then date_part
  else date_part +:+ " " +:+ pad 2 (hour d) +:+ ":" +:+ pad 2 (minute d)
       +:+ ":" +:+ pad 2 (second d).

Definition datetime_lib : PyDatetime :=
  {| fromisoformat := read_iso;
     strptime := read_strptime;
     strftime := write |}.

End Canonical.

(** ** The request gate: schema validation and the controller *)

(** The body of a POST request as the schema reads it: the free-text
    [query], [max_results], the string-valued attributes that are present
    and not null (keyed by attribute name) and the two code lists.  The
    integer attributes are read neither by the validator nor by the
    controller and are left out. *)
Record UnifiedSearchRequest := {
  query : option string;
  max_results : option Z;
  strings : gmap string string;
  req_icd10 : option (list string);
  req_icd9 : option (list string)
}.

(** Truth value of [values.get(k)] for a string attribute. *)
Definition supplied (request : UnifiedSearchRequest) (k : string) : bool :=
  match strings request !! k with
  | Some s => Py.truthy s
  | None => false
  end.

Definition supplied_list (l : option (list string)) : bool :=
  match l with
  | Some (_ :: _) => true
  | _ => false
  end.

Definition supplied_query (request : UnifiedSearchRequest) : bool :=
  match query request with
  | Some s => Py.truthy s
  | None => false
  end.

(** The string attributes listed in [validate_unified_fields]. *)
Definition validated_keys : list string :=
  [ "class_id"; "class_name"; "hospital_code"; "hospital_name"; "archetype";
    "hospital_region"; "birthdate"; "gender"; "primary_doctor";
    "admission_type"; "anesthesia_doctor"; "anesthesia_type"; "payer_type";
    "payer_name" ].

(** The string attributes copied by [_extract_structured_data]. *)
Definition structured_keys : list string :=
  [ "class_id"; "class_name"; "hospital_code"; "hospital_name"; "archetype";
    "hospital_region"; "birthdate"; "gender"; "primary_doctor";
    "admission_type"; "admission_date"; "discharge_date";
    "anesthesia_doctor"; "anesthesia_type"; "surgery_nature"; "payer_type";
    "payer_name" ].

(** The model validator: [true] when it returns [values], [false] when it
    raises [ValueError]. *)
Definition validate_unified_fields (values : UnifiedSearchRequest) : bool :=
  negb (negb (supplied_query values)
        && negb (existsb (supplied values) validated_keys
                 || supplied_list (req_icd10 values)
                 || supplied_list (req_icd9 values))).

(** The [Field] constraints on [query] and [max_results]. *)
Definition field_constraints (values : UnifiedSearchRequest) : bool :=
  match query values with
  | Some s => bool_decide (1 ≤ String.length s ≤ 500)%nat
  | None => true
  end
  && bool_decide (1 ≤ default 3 (max_results values) ≤ 20).

(** A body is accepted when the model validator and the field constraints
    pass. *)
Definition schema_accepts (values : UnifiedSearchRequest) : bool :=
  validate_unified_fields values && field_constraints values.

(** [_extract_structured_data]: the structured attributes that are neither
    null nor empty. *)
Definition _extract_structured_data (request : UnifiedSearchRequest)
    : InputData :=
  {| fields :=
       filter (λ kv, kv.1 ∈ structured_keys ∧ kv.2 ≠ "") (strings request);
     icd10 := default [] (req_icd10 request);
     icd9 := default [] (req_icd9 request) |}.

(** [any(structured_data.values())] *)
Definition any_values (structured_data : InputData) : bool :=
  existsb Py.truthy (map_to_list (fields structured_data)).*2
  || bool_decide (icd10 structured_data ≠ [])
  || bool_decide (icd9 structured_data ≠ []).

Inductive Response :=
| Rejected (error : string)
| Completed (rows : list Row).

Section Controller.
Context `{PyDatetime}.
Variable client_query : Query → option (list Row).

(** The controller up to the call of the search; both [response_error]
    calls raise.  The second component lists the queries sent to the
    client while the request was handled. *)
Definition unified_search_with_billing (request : UnifiedSearchRequest)
    : Response * list Query :=
  if supplied_query request then
    (Rejected "Simple query format not yet supported", [])
  else
    let structured_data := _extract_structured_data request in
    if negb (any_values structured_data) then
      (Rejected "No search criteria provided", [])
    else
      let n := default 3 (max_results request) in
      (Completed (search_similar_admissions client_query structured_data n),
       search_trace client_query structured_data n).

(** The route: the schema first, then the controller. *)
Definition unified_search (payload : UnifiedSearchRequest)
    : Response * list Query :=
  if schema_accepts payload then unified_search_with_billing payload
  else (Rejected "request validation failed", []).

End Controller.

(** ** Formatting the result tuples and merging the billing items *)

(** The alias of an item of the SELECT list ([... as age_diff]). *)
Definition item_name (item : select_item) : string :=
  match item with
  | SelAgeDiff _ => "age_diff"
  | SelDateDiff _ => "date_diff"
  | SelExpr name _ => name
  end.

Module Api.

(** [column_mapping] of [format_results_for_api]. *)
Definition column_mapping : list string :=
  [ "AdmissionId"; "AdmissionTypeId"; "AdmissionTypeName";
    "OrganizationCode"; "OrganizationId"; "AdmissionDate"; "DischargeDate";
    "PatientId"; "BirthDate"; "Sex"; "PatientType"; "PatientTypeId";
    "PrimaryDoctor"; "PrimaryDoctorUserId"; "Specialty"; "SpecialtyGroup";
    "Region"; "Archetype"; "DiseaseClassification";
    "ProcedureClassification"; "InvoiceClass"; "InvoiceClassId";
    "PayerName"; "PayerId"; "PayerType"; "InvoiceNetAmount"; "Age";
    "LengthOfStay"; "AnesthesiaDoctor"; "AnesthesiaType" ].

Section Formatter.
Context {V : Type}.

(** [l[-k]] for [1 <= k]; [None] where Python raises [IndexError]. *)
Definition from_end (l : list V) (k : nat) : option V :=
  if decide (k ≤ length l)%nat then l !! (length l - k)%nat else None.

(** The loop over [enumerate(names)] that fills [result_dict]. *)
Definition map_columns (names : list string) (result_row : list V)
    : gmap string V :=
  foldl (λ result_dict '(i, col_name),
           match result_row !! i with
           | Some v => <[col_name := v]> result_dict
           | None => result_dict
           end)
        ∅ (imap (λ i col_name, (i, col_name)) names).

(** The [result_dict] built for one result tuple.  Under the two guards
    the three positions counted from the end exist. *)
Definition format_document (result_row : list V) : gmap string V :=
  let result_dict := map_columns column_mapping result_row in
  if decide (length column_mapping < length result_row)%nat then
    let remaining_fields := drop (length column_mapping) result_row in
    if decide (3 ≤ length remaining_fields)%nat then
      match from_end remaining_fields 3, from_end remaining_fields 2,
            from_end remaining_fields 1 with
      | Some a, Some d, Some s =>
          <["result_step" := s]>
            (<["date_diff" := d]> (<["age_diff" := a]> result_dict))
      | _, _, _ => result_dict
      end
    else result_dict
  else result_dict.

Record FormattedResult := {
  document : gmap string V;
  highlights : gmap string V;
  text_match : Z
}.

Record FormattedResults := {
  found : nat;
  results : list FormattedResult;
  search_time_ms : Z;
  page : Z
}.

Definition format_results_for_api (raw_results : list (list V))
    : FormattedResults :=
  let formatted_results :=
    (λ result_row,
       {| document := format_document result_row;
          highlights := ∅;
          text_match := 100 |}) <$> raw_results in
  {| found := length formatted_results;
     results := formatted_results;
     search_time_ms := 0;
     page := 1 |}.

End Formatter.
End Api.

Module Billing.

(** [SalesItem]; a billing item of the response has the same six keys.
    Amounts are copied, never computed with, and are kept as rationals. *)
Record SalesItem := {
  admission_id : Z;
  sales_item_id : string;
  item_type : string;
  item_name : string;
  quantity : Z;
  item_net_amount : Q
}.

(** What the merge reads of one item of the pricing answer:
    [str(rt_item.get('sales_item_id', ''))] and
    [rt_item.get('calculated_price', 0)]. *)
Record PricedItem := {
  priced_id : string;
  calculated_price : Q
}.

(** The answer of [_get_real_time_pricing] as far as the merge reads it. *)
Record Pricing := {
  success : bool;
  sales_items : list PricedItem
}.

Definition realtime_price_map (priced : list PricedItem) : gmap string Q :=
  foldl (λ price_map rt_item,
           let item_id := priced_id rt_item in
           if Py.truthy item_id
           then <[item_id := calculated_price rt_item]> price_map
           else price_map)
        ∅ priced.

(** The hybrid items: historical details, real-time price where the map
    has one. *)
Definition hybrid_items (priced : list PricedItem)
    (items : list SalesItem) : list SalesItem :=
  let price_map := realtime_price_map priced in
  (λ historical_item,
     let historical_id := sales_item_id historical_item in
     let realtime_price :=
       default (item_net_amount historical_item)
               (price_map !! historical_id) in
     {| admission_id := admission_id historical_item;
        sales_item_id := sales_item_id historical_item;
        item_type := item_type historical_item;
        item_name := item_name historical_item;
        quantity := quantity historical_item;
        item_net_amount := realtime_price |}) <$> items.

(** [billing_items] of [billing_analysis_search] for a billing summary with
    these items; [None] is a falsy pricing answer. *)
Definition billing_items (real_time_pricing : option Pricing)
    (items : list SalesItem) : list SalesItem :=
  match real_time_pricing with
  | Some pricing =>
      if success pricing
         && match sales_items pricing with [] => false | _ => true end
      then hybrid_items (sales_items pricing) items
      else items
  | None => items
  end.

(** The priced items a merge can take the price of [item_id] from. *)
Definition offers (real_time_pricing : option Pricing) (item_id : string)
    : list PricedItem :=
  match real_time_pricing with
  | Some pricing =>
      if success pricing
      then filter (λ rt_item, priced_id rt_item = item_id ∧ item_id ≠ "")
             (sales_items pricing)
      else []
  | None => []
  end.

End Billing.

(** ** Notions used in the statements *)

(** A list of codes without quote or backslash. *)
Definition plain_codes (codes : list string) : Prop :=
  Forall (λ code, sql_plain code = true) codes.

(** A normalised request all of whose pasted values are plain: the values
    of the dictionary, the codes and the two formatted dates. *)
Definition data_plain (data : ProcessedData) : Prop :=
  map_Forall (λ _ v, sql_plain v = true) (fields (input data))
  ∧ plain_codes (icd10 (input data))
  ∧ plain_codes (icd9 (input data))
  ∧ sql_plain (formatted_admission_date data) = true
  ∧ sql_plain (formatted_birth_date data) = true.

Global Instance data_plain_dec data : Decision (data_plain data).
Proof. unfold data_plain, plain_codes. apply _. Defined.

(** A request that is plain once normalised. *)
Definition request_plain `{PyDatetime} (input_data : InputData) : Prop :=
  data_plain (_calculate_age_and_los input_data).

(** The client asked plain queries only; it raises on the others. *)
Definition on_plain (client_query : Query → option (list Row))
    (q : Query) : option (list Row) :=
  if query_plain q then client_query q else None.

(** The order of the final sort: ascending in the sort key. *)
Definition key_le {A} (key : A → Z) (x y : A) : Prop := key x ≤ key y.

(** The state mirrors the queries sent so far. *)
Definition coherent (client_query : Query → option (list Row))
    (st : SearchState) : Prop :=
  results st = concat (_execute_query client_query <$> issued st)
  ∧ found_admission_ids st = list_to_set (row_id <$> results st).

(** The whole-year age formula. *)
Definition age_between (a b : datetime) : Z :=
  year a - year b
  - (if pair_ltb (month a, day a) (month b, day b) then 1 else 0).

(** [(y1, m1, d1) <= (y2, m2, d2)] on calendar dates. *)
Definition ymd_le (p q : Z * Z * Z) : Prop :=
  p.1.1 < q.1.1
  ∨ (p.1.1 = q.1.1 ∧ (p.1.2 < q.1.2 ∨ (p.1.2 = q.1.2 ∧ p.2 ≤ q.2))).

(** The end date is absent, empty, or readable. *)
Definition discharge_ok `{PyDatetime} (input_data : InputData) : Prop :=
  get input_data "discharge_date" = ""
  ∨ is_Some (parse_datetime (get input_data "discharge_date")).





(** [c in s] for Python strings: [c] occurs in [s] as a substring. *)
Definition substringb (c s : string) : bool :=
  any_suffix (Py.startswith c) s.

(** A code without the two wildcard characters of LIKE. *)
Definition like_plain (c : string) : Prop :=
  Py.contains_char "%" c = false ∧ Py.contains_char "_" c = false.

Definition semicolon_free (c : string) : Prop :=
  Py.contains_char ";" c = false.

(** The number of pieces of [s] between semicolons. *)
Definition delimited_count (s : string) : nat := length (Py.split ";" s).

(** The number of codes of the list that occur in [s]. *)
Definition matched_codes (codes : list string) (s : string) : nat :=
  length (filter (λ c, substringb c s = true) codes).

(** The score the partial modes are meant to give. *)
Definition count_score (codes : list string) (stored : string) : Q :=
  match codes with
  | [] => 0
  | _ =>
      inject_Z (Z.of_nat (matched_codes codes stored))
      + (if bool_decide (length codes < delimited_count stored)%nat
         then - (1 # 10) else 0)
  end%Q.

(** Occurrences of a character. *)
Fixpoint count_char (c : ascii) (s : string) : nat :=
  match s with
  | EmptyString => 0
  | String d s' => (if Ascii.eqb c d then 1 else 0) + count_char c s'
  end%nat.






(** The number of codes of the list whose pattern ['%code%'] the text
    matches. *)
Definition like_matches (codes : list string) (s : string) : nat :=
  length (filter (λ c, like ("%" +:+ c +:+ "%") s = true) codes).

(** The aliases of the computed columns of a stage query. *)
Definition select_names (q : Query) : list string :=
  item_name <$> q_select q.

(** ** Tables and requests of the worked instances *)

Definition join_rest (l : list string) : string :=
  match l with
  | [] => ""
  | _ => "; " +:+ Py.join "; " l
  end.

Fixpoint lookup_col (cols : list (column * string)) (c : column) : string :=
  match cols with
  | [] => ""
  | (c', v) :: rest => if decide (c = c') then v else lookup_col rest c
  end.

(** A stored row given by its identifier and its non-empty columns. *)
Definition admission (id : Z) (cols : list (column * string)) : Admission :=
  {| AdmissionId := id; col := lookup_col cols |}.

Definition request (l : list (string * string)) (codes10 codes9 : list string)
    : InputData :=
  {| fields := list_to_map l; icd10 := codes10; icd9 := codes9 |}.

(** Three admissions of one hospital and payer under other doctors, and one
    admission elsewhere. *)
Definition ward_table : list Admission :=
  [ admission 101 [ (OrganizationCode, "SHLV"); (PayerName, "ACME");
                    (PrimaryDoctor, "Dr B") ];
    admission 102 [ (OrganizationCode, "SHLV"); (PayerName, "ACME");
                    (PrimaryDoctor, "Dr C") ];
    admission 103 [ (OrganizationCode, "SHLV"); (PayerName, "ACME");
                    (PrimaryDoctor, "Dr D") ];
    admission 104 [ (OrganizationCode, "SHKJ"); (PayerName, "ACME");
                    (PrimaryDoctor, "Dr A") ] ].

(** The same with one admission that fits the request below in full. *)
Definition demo_table : list Admission :=
  admission 201 [ (OrganizationCode, "SHLV"); (PayerName, "ACME");
                  (PrimaryDoctor, "Dr A") ]
  :: ward_table.

Definition demo_input : InputData :=
  request [ ("hospital_code", "SHLV"); ("payer_name", "ACME");
            ("primary_doctor", "Dr A") ] [] [].

Definition demo_search (failing : list nat) (tbl : list Admission) (n : Z)
    : list Row :=
  search_similar_admissions (H := Canonical.datetime_lib)
    (scan_client failing tbl) demo_input n.

Definition demo_trace (failing : list nat) (tbl : list Admission) (n : Z)
    : list Query :=
  search_trace (H := Canonical.datetime_lib)
    (scan_client failing tbl) demo_input n.

Definition normalise : InputData → ProcessedData :=
  _calculate_age_and_los (H := Canonical.datetime_lib).

Definition birthday_eve : InputData :=
  request [ ("admission_date", "2020-03-09 00:00:00");
            ("birthdate", "2000-03-10") ] [] [].

Definition admitted_2020_03_09 : datetime :=
  {| year := 2020; month := 3; day := 9; hour := 0; minute := 0; second := 0 |}.

Definition born_2000_03_10 : datetime :=
  {| year := 2000; month := 3; day := 10; hour := 0; minute := 0; second := 0 |}.

Definition three_day_stay : InputData :=
  request [ ("admission_date", "2021-01-01 08:00:00");
            ("birthdate", "1990-06-15");
            ("discharge_date", "2021-01-04 07:00:00") ] [] [].

(** Two codes in the two orders, and the stored fields they select. *)
Definition codes_ab : InputData := request [] ["A"; "B"] [].
Definition codes_ba : InputData := request [] ["B"; "A"] [].
Definition stored_ab : Admission :=
  admission 1 [(DiseaseClassification, "A; B")].
Definition stored_ba : Admission :=
  admission 2 [(DiseaseClassification, "B; A")].
Definition stored_bare : Admission :=
  admission 3 [(DiseaseClassification, "A;B")].

(** A code with the one-character wildcard, and a stored field in which it
    does not occur as a substring. *)
Definition codes_wild : InputData := request [] ["J1_"] [].
Definition stored_j18 : Admission :=
  admission 4 [(DiseaseClassification, "J18.9")].
Definition codes_plain : InputData := request [] ["J18"; "E11"] ["99.04"].
Definition stored_broad : Admission :=
  admission 5 [ (DiseaseClassification, "J18.9; I10; E11.9");
                (ProcedureClassification, "99.04") ].

(** A request with a free-text query and a hospital code. *)
Definition query_and_code : UnifiedSearchRequest :=
  {| query := Some "pneumonia";
     max_results := Some 3;
     strings := {["hospital_code" := "SHLV"]};
     req_icd10 := None;
     req_icd9 := None |}.

Definition code_only : UnifiedSearchRequest :=
  {| query := None;
     max_results := Some 3;
     strings := {["hospital_code" := "SHLV"]};
     req_icd10 := None;
     req_icd9 := None |}.

Definition nothing_supplied : UnifiedSearchRequest :=
  {| query := None;
     max_results := None;
     strings := ∅;
     req_icd10 := Some [];
     req_icd9 := None |}.

(** A request with two diagnosis codes and one procedure code, and
    admissions that the exact stages, the mixed stage and the two
    procedure-only stages find. *)
Definition coded_input : InputData :=
  request [("hospital_code", "SHLV")] ["J18.9"; "E11"] ["99.04"].

Definition coded_table : list Admission :=
  [ admission 301 [ (OrganizationCode, "SHLV");
                    (DiseaseClassification, "J18.9; E11");
                    (ProcedureClassification, "99.04") ];
    admission 302 [ (OrganizationCode, "SHKJ");
                    (DiseaseClassification, "J18.9; E11");
                    (ProcedureClassification, "99.04") ];
    admission 303 [ (DiseaseClassification, "J18.9");
                    (ProcedureClassification, "99.04") ];
    admission 304 [ (ProcedureClassification, "99.04") ];
    admission 305 [ (ProcedureClassification, "99.04; 88.01") ] ].

Definition coded_search (n : Z) : list Row :=
  search_similar_admissions (H := Canonical.datetime_lib)
    (scan_client [] coded_table) coded_input n.



Definition two_procedures : InputData := request [] [] ["99.04"; "88.01"].
Definition stored_two_procedures : Admission :=
  admission 5 [(ProcedureClassification, "99.04; 88.01")].


Definition admission_date_only : UnifiedSearchRequest :=
  {| query := None;
     max_results := Some 3;
     strings := {["admission_date" := "2021-01-01 08:00:00"]};
     req_icd10 := None;
     req_icd9 := None |}.


(** * Properties *)

(** ** The stable sort *)

Section SortBy.
Context {A : Type} (key : A → Z).

Lemma insert_by_perm x l : insert_by key x l ≡ₚ x :: l.
Proof.
  induction l as [|y l IH]; simpl; [done|].
  case_match; [done|].
  rewrite IH. apply Permutation_swap.
Qed.

Lemma sort_by_perm l : sort_by key l ≡ₚ l.
Proof.
  induction l as [|x l IH]; simpl; [done|].
  rewrite insert_by_perm. by f_equiv.
Qed.

Lemma insert_by_sorted x l :
  StronglySorted (key_le key) l → StronglySorted (key_le key) (insert_by key x l).
Proof.
  induction 1 as [|y l Hs IH Hall]; simpl.
  - repeat constructor.
  - destruct (key x <=? key y) eqn:E.
    + apply Z.leb_le in E. constructor; [by constructor|].
      constructor; [done|].
      eapply Forall_impl; [exact Hall|]. unfold key_le. intros; lia.
    + apply Z.leb_gt in E. constructor; [done|].
      rewrite insert_by_perm. constructor; [|done].
      unfold key_le. lia.
Qed.

Lemma sort_by_sorted l : StronglySorted (key_le key) (sort_by key l).
Proof.
  induction l as [|x l IH]; simpl; [constructor|].
  by apply insert_by_sorted.
Qed.

Lemma insert_by_filter k x l :
  filter (λ y, key y = k) (insert_by key x l)
  = filter (λ y, key y = k) (x :: l).
Proof.
  induction l as [|y l IH]; simpl; [done|].
  destruct (key x <=? key y) eqn:E; [done|].
  apply Z.leb_gt in E.
  rewrite (filter_cons _ y), IH, !filter_cons.
  repeat case_decide; try done; lia.
Qed.

Lemma sort_by_filter k l :
  filter (λ y, key y = k) (sort_by key l) = filter (λ y, key y = k) l.
Proof.
  induction l as [|x l IH]; simpl; [done|].
  rewrite insert_by_filter, !filter_cons, IH. done.
Qed.

Lemma sort_by_sorted_id l : StronglySorted (key_le key) l → sort_by key l = l.
Proof.
  induction 1 as [|x l Hs IH Hall]; simpl; [done|].
  rewrite IH. destruct Hall as [|y l Hxy _]; simpl; [done|].
  unfold key_le in Hxy. by apply Z.leb_le in Hxy as ->.
Qed.

Lemma filter_key_head x l :
  filter (λ y, key y = key x) (x :: l) = x :: filter (λ y, key y = key x) l.
Proof. rewrite filter_cons. by case_decide. Qed.

Lemma sorted_head_le x l z :
  StronglySorted (key_le key) (x :: l) → z ∈ x :: l → key x ≤ key z.
Proof.
  intros Hs Hz. apply StronglySorted_inv in Hs as [_ Hall].
  apply elem_of_cons in Hz as [->|Hz]; [lia|].
  rewrite Forall_forall in Hall. by apply Hall.
Qed.

Lemma filter_key_witness k x l l' :
  filter (λ y, key y = k) l' = x :: l → x ∈ l' ∧ key x = k.
Proof.
  intros Hf.
  assert (x ∈ filter (λ y, key y = k) l') as Hx
    by (rewrite Hf; apply list_elem_of_here).
  apply list_elem_of_filter in Hx as [? ?]. done.
Qed.

(** Two sorted lists that agree on the rows of every key are equal. *)
Lemma sorted_filters_eq l1 l2 :
  StronglySorted (key_le key) l1 → StronglySorted (key_le key) l2 →
  (∀ k, filter (λ y, key y = k) l1 = filter (λ y, key y = k) l2) →
  l1 = l2.
Proof.
  revert l2. induction l1 as [|x l1 IH]; intros [|y l2] H1 H2 Hf.
  - done.
  - specialize (Hf (key y)). rewrite filter_key_head in Hf. done.
  - specialize (Hf (key x)). rewrite filter_key_head in Hf. done.
  - assert (key x = key y) as Hxy.
    { pose proof (Hf (key x)) as Hx. rewrite filter_key_head in Hx.
      symmetry in Hx. apply filter_key_witness in Hx as [Hx1 Hx2].
      pose proof (Hf (key y)) as Hy. rewrite filter_key_head in Hy.
      apply filter_key_witness in Hy as [Hy1 Hy2].
      pose proof (sorted_head_le _ _ _ H2 Hx1).
      pose proof (sorted_head_le _ _ _ H1 Hy1). lia. }
    pose proof (Hf (key x)) as Hhead.
    rewrite filter_key_head, Hxy, filter_key_head in Hhead.
    injection Hhead as -> Htail.
    f_equal. apply IH.
    + by apply StronglySorted_inv in H1 as [? _].
    + by apply StronglySorted_inv in H2 as [? _].
    + intros k. destruct (decide (k = key y)) as [->|Hk]; [done|].
      specialize (Hf k). rewrite !filter_cons in Hf.
      by rewrite !decide_False in Hf by done.
Qed.

(** A stable ascending sort has one possible result, that of [sort_by]:
    Python's [list.sort] returns this list whatever its algorithm. *)
Lemma stable_sort_unique l l' :
  StronglySorted (key_le key) l' →
  (∀ k, filter (λ y, key y = k) l' = filter (λ y, key y = k) l) →
  l' = sort_by key l.
Proof.
  intros Hs Hf. apply sorted_filters_eq; [done|apply sort_by_sorted|].
  intros k. by rewrite Hf, sort_by_filter.
Qed.

End SortBy.


Lemma slice_to_nonneg {A} (l : list A) n :
  0 ≤ n → Py.slice_to l n = take (Z.to_nat n) l.
Proof. intros Hn. unfold Py.slice_to. by apply Z.leb_le in Hn as ->. Qed.

(** ** The loop of the driver *)

Section DriverFacts.
Context `{PyDatetime}.
Variable client_query : Query → option (list Row).
Variable max_results : Z.
Variable data : ProcessedData.

Local Abbreviation exec := (_execute_query client_query).
Local Abbreviation ids rows := (row_id <$> rows).

Lemma run_step_results f st :
  results (run_step client_query data f st)
  = results st ++ exec (f data (found_admission_ids st)).
Proof.
  unfold run_step. destruct (exec _); simpl; [by rewrite app_nil_r|done].
Qed.

Lemma run_step_issued f st :
  issued (run_step client_query data f st)
  = issued st ++ [f data (found_admission_ids st)].
Proof. unfold run_step. by destruct (exec _). Qed.

Lemma run_step_found f st :
  found_admission_ids (run_step client_query data f st)
  = found_admission_ids st
    ∪ list_to_set (ids (exec (f data (found_admission_ids st)))).
Proof.
  unfold run_step. destruct (exec _); simpl; [|done].
  by rewrite union_empty_r_L.
Qed.

Lemma run_step_coherent f st :
  coherent client_query st → coherent client_query (run_step client_query data f st).
Proof.
  intros [Hr Hf]. split.
  - rewrite run_step_results, run_step_issued, fmap_app, concat_app, Hr.
    simpl. by rewrite app_nil_r.
  - rewrite run_step_found, run_step_results, fmap_app, list_to_set_app_L.
    by rewrite Hf.
Qed.

(** What one run of the loop adds to a coherent state: the new queries
    [qs], each built by the step function of its position from the
    identifiers gathered before it and sent only while fewer than
    [max_results] rows were held; the loop stops early only on the
    threshold. *)
Lemma run_steps_spec fs st :
  coherent client_query st →
  let st' := run_steps client_query max_results data fs st in
  coherent client_query st'
  ∧ ∃ qs,
      issued st' = issued st ++ qs
      ∧ results st' = results st ++ concat (exec <$> qs)
      ∧ (∀ j q, qs !! j = Some q →
           let before := results st ++ concat (exec <$> take j qs) in
           Z.of_nat (length before) < max_results
           ∧ ∃ f, fs !! j = Some f ∧ q = f data (list_to_set (ids before)))
      ∧ (length qs = length fs
         ∨ max_results ≤ Z.of_nat (length (results st'))).
Proof.
  revert st. induction fs as [|f fs IH]; intros st Hc; simpl.
  { split; [done|]. exists []. rewrite !app_nil_r.
    split_and!; [done..| |by left].
    intros j q Hq. by rewrite lookup_nil in Hq. }
  destruct (max_results <=? Z.of_nat (length (results st))) eqn:E.
  { apply Z.leb_le in E. split; [done|]. exists [].
    rewrite !app_nil_r. split_and!; [done..| |by right].
    intros j q Hq. by rewrite lookup_nil in Hq. }
  apply Z.leb_gt in E.
  destruct (IH _ (run_step_coherent f st Hc)) as (Hc' & qs & Hi & Hr & Hq & Hend).
  split; [done|].
  set (q0 := f data (found_admission_ids st)) in *.
  exists (q0 :: qs). rewrite Hi, Hr, run_step_issued, run_step_results.
  fold q0. rewrite <- !(assoc_L (++)). simpl.
  split_and!; [done..| |].
  - intros [|j] q Hj; simpl in *.
    + injection Hj as <-. rewrite app_nil_r. split; [done|].
      exists f. split; [done|]. unfold q0. by rewrite (proj2 Hc).
    + destruct (Hq j q Hj) as [Hlt (g & Hg & Hqg)].
      rewrite run_step_results in Hlt, Hqg. fold q0 in Hlt, Hqg.
      rewrite <- (assoc_L (++)) in Hlt, Hqg. eauto.
  - destruct Hend as [->| Hge]; [by left|right].
    by rewrite Hr, run_step_results, <- (assoc_L (++)) in Hge.
Qed.

End DriverFacts.

(** ** The stage queries *)



Lemma exclusion_empty : _get_exclusion_clause ∅ = [].
Proof. unfold _get_exclusion_clause. by case_decide. Qed.

(** The entry at position [i] of [steps] writes the literal of stage
    [i + 1]. *)
Lemma steps_q_step i f data found :
  steps !! i = Some f → q_step (f data found) = S i.
Proof.
  intros Hf. unfold steps in Hf.
  do 17 (destruct i as [|i]; [by simplify_eq/=|]). done.
Qed.

Lemma steps_length : length steps = 17%nat.
Proof. done. Qed.


(** ** The whole search *)

Section SearchFacts.
Context `{PyDatetime}.
Variable client_query : Query → option (list Row).
Variable input_data : InputData.
Variable max_results : Z.

Local Abbreviation exec := (_execute_query client_query).
Local Abbreviation trace := (search_trace client_query input_data max_results).
Local Abbreviation acc := (accumulated client_query input_data max_results).
Local Abbreviation before k := (rows_before client_query trace k).
Local Abbreviation data := (_calculate_age_and_los input_data).

Lemma initial_coherent : coherent client_query initial_state.
Proof. split; [done|]. simpl. set_solver. Qed.

Lemma search_spec :
  acc = concat (exec <$> trace)
  ∧ (∀ i q, trace !! i = Some q →
       Z.of_nat (length (before i)) < max_results
       ∧ ∃ f, steps !! i = Some f
              ∧ q = f data (list_to_set (row_id <$> before i)))
  ∧ (length trace = 17%nat ∨ max_results ≤ Z.of_nat (length acc)).
Proof.
  destruct (run_steps_spec client_query max_results data steps
              initial_state initial_coherent)
    as (_ & qs & Hi & Hr & Hq & Hend).
  change (issued initial_state ++ qs) with qs in Hi.
  change (results initial_state ++ ?l) with l in Hr.
  unfold search_trace, accumulated, final_state, rows_before.
  rewrite Hi, Hr. split_and!; [done|exact Hq|].
  destruct Hend as [Hl|Hge]; [by left|right]. by rewrite Hr in Hge.
Qed.

Lemma trace_length : (length trace ≤ 17)%nat.
Proof.
  destruct search_spec as (_ & Hq & _).
  destruct (decide (length trace ≤ 17)%nat) as [|Hn]; [done|].
  destruct (lookup_lt_is_Some_2 trace 17) as [q Hq17]; [lia|].
  destruct (Hq _ _ Hq17) as (_ & f & Hf & _).
  apply lookup_lt_Some in Hf. rewrite steps_length in Hf. lia.
Qed.

Lemma trace_q_step i q : trace !! i = Some q → q_step q = S i.
Proof.
  intros Hq. destruct search_spec as (_ & Hs & _).
  destruct (Hs _ _ Hq) as (_ & f & Hf & ->). by apply steps_q_step.
Qed.

Lemma before_S i q :
  trace !! i = Some q → before (S i) = before i ++ exec q.
Proof.
  intros Hq. unfold rows_before.
  rewrite (take_S_r _ _ _ Hq), fmap_app, concat_app. simpl.
  by rewrite app_nil_r.
Qed.

Lemma before_all k : (length trace ≤ k)%nat → before k = acc.
Proof.
  intros Hk. destruct search_spec as (-> & _). unfold rows_before.
  by rewrite take_ge.
Qed.

Lemma before_length_mono i k :
  (i ≤ k)%nat → (length (before i) ≤ length (before k))%nat.
Proof.
  intros Hik. unfold rows_before.
  replace k with (i + (k - i))%nat by lia.
  rewrite <- take_take_drop, fmap_app, concat_app, length_app. lia.
Qed.

End SearchFacts.

(** ** Consequences of the client contract *)

Section SoundClient.
Context `{PyDatetime}.
Variable tbl : list Admission.
Variable client_query : Query → option (list Row).
Hypothesis sound : client_sound tbl client_query.

Lemma exec_matching q r :
r ∈ _execute_query client_query q →
row_base r ∈ tbl
∧ eval_where (q_where q) (row_base r) = true
∧ result_step r = step_tag (q_step q).
Proof.
unfold _execute_query. destruct (client_query q) as [rows|] eqn:E.
- destruct (sound _ _ E) as (Hsub & Htag & _). intros Hr.
  assert (row_base r ∈ matching q tbl) as Hm.
  { eapply elem_of_submseteq; [|exact Hsub]. by apply list_elem_of_fmap_2. }
  apply list_elem_of_filter in Hm as [Hw Hin].
  rewrite Forall_forall in Htag. auto.
- by intros ?%elem_of_nil.
Qed.




End SoundClient.

Lemma size_list_to_set_le (l : list Z) :
  (size (list_to_set l : gset Z) ≤ length l)%nat.
Proof.
  induction l as [|x l IH].
  { change (list_to_set []) with (∅ : gset Z). by rewrite size_empty. }
  change (list_to_set (x :: l)) with ({[x]} ∪ list_to_set l : gset Z).
  simpl. rewrite size_union_alt, size_singleton.
  assert (size (list_to_set l ∖ {[x]} : gset Z)
          ≤ size (list_to_set l : gset Z))%nat as Hle.
  { apply subseteq_size, subseteq_difference_l. done. }
  lia.
Qed.

(** ** Plain values *)

Lemma contains_char_app c s t :
  Py.contains_char c (s +:+ t)
  = Py.contains_char c s || Py.contains_char c t.
Proof.
  induction s as [|x s IH]; [done|].
  change (String x s +:+ t) with (String x (s +:+ t)).
  cbn [Py.contains_char]. destruct (Ascii.eqb c x); [done|exact IH].
Qed.

Lemma sql_plain_app s t :
  sql_plain (s +:+ t) = sql_plain s && sql_plain t.
Proof.
  unfold sql_plain. rewrite !contains_char_app.
  by destruct (Py.contains_char "039" s), (Py.contains_char "092" s),
    (Py.contains_char "039" t).
Qed.

Lemma sql_plain_join codes :
  plain_codes codes → sql_plain (Py.join "; " codes) = true.
Proof.
  induction 1 as [|c codes Hc _ IH]; [done|].
  destruct codes as [|c' codes]; [exact Hc|].
  change (Py.join "; " (c :: c' :: codes))
    with (c +:+ "; " +:+ Py.join "; " (c' :: codes)).
  by rewrite !sql_plain_app, Hc, IH.
Qed.

Lemma sql_plain_pattern code :
  sql_plain code = true → sql_plain ("%" +:+ code +:+ "%") = true.
Proof. intros Hc. by rewrite !sql_plain_app, Hc. Qed.

(** A decimal numeral holds digits and at most a sign. *)
Lemma sql_plain_digits x s :
  sql_plain s = true → sql_plain (pretty_N_go x s) = true.
Proof.
  revert s. induction (N.lt_wf_0 x) as [x _ IH]. intros s Hs.
  destruct (decide (x = 0)%N) as [->|Hx]; [by rewrite pretty_N_go_0|].
  rewrite pretty_N_go_step by lia.
  apply IH; [apply N.div_lt; lia|].
  change (String ?c s) with (String c "" +:+ s).
  rewrite sql_plain_app, Hs, andb_true_r.
  unfold pretty_N_char. by repeat case_match.
Qed.

Lemma sql_plain_str_of_Z n : sql_plain (Py.str_of_Z n) = true.
Proof.
  assert (∀ p : positive, sql_plain (pretty p) = true) as Hp.
  { intros p. unfold pretty, pretty_positive, pretty, pretty_N.
    case_decide; [done|]. by apply sql_plain_digits. }
  unfold Py.str_of_Z, pretty, pretty_Z. destruct n as [|p|p]; [done|apply Hp|].
  by rewrite sql_plain_app, Hp.
Qed.

Lemma sql_plain_los l : sql_plain (los_str l) = true.
Proof. destruct l; [done|apply sql_plain_str_of_Z]. Qed.

Lemma sql_plain_get data key :
  data_plain data → sql_plain (get (input data) key) = true.
Proof.
  intros (Hf & _). unfold get.
  destruct (fields (input data) !! key) as [v|] eqn:E; [|done].
  exact (Hf _ _ E).
Qed.

Lemma plain_exact_filter f codes :
  plain_codes codes → plain_b (exact_filter f codes) = true.
Proof.
  intros Hc. destruct codes as [|c codes]; [done|].
  unfold exact_filter, build_exact_codes_string. cbn [plain_b].
  by apply sql_plain_join.
Qed.

Lemma plain_partial_filter f codes :
  plain_codes codes → plain_b (partial_filter f codes) = true.
Proof.
  intros Hc. destruct codes as [|c0 codes0]; [done|].
  unfold partial_filter. cbn [plain_b]. revert Hc. generalize (c0 :: codes0).
  induction 1 as [|c codes Hc _ IH]; [done|].
  rewrite fmap_cons. cbn [forallb plain_b].
  by rewrite sql_plain_pattern, IH.
Qed.

Lemma plain_fold_add f codes acc :
  plain_codes codes → plain_n acc = true →
  plain_n (fold_left NAdd (like_case f <$> codes) acc) = true.
Proof.
  intros Hc. revert acc. induction Hc as [|c codes Hc _ IH]; [done|].
  intros acc Hacc. rewrite fmap_cons. cbn [fold_left]. apply IH.
  cbn [plain_n like_case plain_b]. by rewrite Hacc, sql_plain_pattern.
Qed.

Lemma plain_enhanced_score codes f :
  plain_codes codes → plain_n (build_enhanced_score codes f) = true.
Proof.
  intros Hc. destruct codes as [|c codes]; [done|].
  apply Forall_cons in Hc as [Hc Hcs].
  unfold build_enhanced_score. cbn [plain_n]. apply andb_true_intro. split.
  - rewrite fmap_cons. unfold sum_join. apply plain_fold_add; [done|].
    cbn [plain_n like_case plain_b]. by rewrite sql_plain_pattern.
  - done.
Qed.

Lemma plain_fixed_score codes : plain_n (fixed_score codes) = true.
Proof. by destruct codes. Qed.

Lemma plain_icd_scores data t :
  data_plain data →
  plain_b (icd10_filter (input data) t) = true
  ∧ plain_b (icd9_filter (input data) t) = true
  ∧ plain_n (icd10_score (input data) t) = true
  ∧ plain_n (icd9_score (input data) t) = true.
Proof.
  intros (_ & H10 & H9 & _).
  destruct t; unfold icd10_filter, icd9_filter, icd10_score, icd9_score,
    _calculate_icd_scores; cbn [fst snd];
    split_and!;
    first [ by apply plain_exact_filter | by apply plain_partial_filter
          | by apply plain_enhanced_score | apply plain_fixed_score | done ].
Qed.

Lemma plain_exclusion found :
  forallb plain_b (_get_exclusion_clause found) = true.
Proof. unfold _get_exclusion_clause. by case_decide. Qed.

Lemma plain_build_condition c v p :
  sql_plain v = true → _build_condition c v = Some p → plain_b p = true.
Proof.
  intros Hv. unfold _build_condition. case_match; [done|]. by intros [= <-].
Qed.

Lemma plain_build_conditions conds :
  Forall (λ o, ∀ p, o = Some p → plain_b p = true) conds →
  forallb plain_b (_build_conditions conds) = true.
Proof.
  induction 1 as [|o conds Ho _ IH]; [done|].
  destruct o as [p|]; [|exact IH].
  change (_build_conditions (Some p :: conds))
    with (p :: _build_conditions conds).
  cbn [forallb]. by rewrite (Ho p), IH.
Qed.

Lemma plain_los_diff data : item_plain (los_diff data) = true.
Proof.
  unfold los_diff, _get_los_diff_calculation.
  by destruct (calculated_los data).
Qed.

Lemma plain_priority data name c key :
  data_plain data → item_plain (priority data name c key) = true.
Proof.
  intros Hd. unfold priority. cbn [item_plain plain_n plain_b].
  by rewrite sql_plain_get.
Qed.

Lemma forallb_elem {A} (f : A → bool) l :
  (∀ x, x ∈ l → f x = true) → forallb f l = true.
Proof.
  intros Hf. apply forallb_forall. intros x Hx%list_elem_of_In. by apply Hf.
Qed.

(** With a plain request every stage query is plain. *)
Lemma steps_plain i f data found :
  steps !! i = Some f → data_plain data →
  query_plain (f data found) = true.
Proof.
  intros Hf Hd. unfold steps in Hf.
  pose proof (plain_icd_scores data exact Hd) as (He1 & He2 & He3 & He4).
  pose proof (plain_icd_scores data partial Hd) as (Hp1 & Hp2 & Hp3 & Hp4).
  pose proof (plain_icd_scores data mixed Hd) as (Hm1 & Hm2 & Hm3 & Hm4).
  pose proof (plain_icd_scores data icd9_only_exact Hd)
    as (Hx1 & Hx2 & Hx3 & Hx4).
  pose proof (plain_icd_scores data icd9_only_partial Hd)
    as (Hy1 & Hy2 & Hy3 & Hy4).
  pose proof Hd as (_ & _ & _ & Hadm & Hbirth).
  assert (∀ p, p ∈ exclusion found → plain_b p = true) as Hex.
  { intros p Hp. pose proof (plain_exclusion found) as Hall.
    rewrite forallb_forall in Hall. by apply Hall, list_elem_of_In. }
  destruct i as [|i].
  { cbn in Hf. injection Hf as <-. unfold query_plain.
    apply andb_true_intro. split.
    - cbv [_step_1]. cbn [q_select forallb item_plain plain_n age_diff
                          date_diff]. by rewrite Hadm, Hbirth.
    - cbv [_step_1]. cbn [q_where]. apply plain_build_conditions.
      repeat (apply Forall_cons; split;
        [ first [ by intros p [= <-]
                | intros p Hp; eapply plain_build_condition; [|exact Hp];
                  first [apply sql_plain_get; exact Hd|apply sql_plain_los] ]
        |]).
      apply Forall_nil_2. }
  cbn in Hf.
  do 16 (destruct i as [|i];
    [ injection Hf as <-; unfold query_plain; apply andb_true_intro; split;
      [ apply forallb_elem; intros x Hx;
        cbv [_step_2 _step_3 _step_4 _step_5 _step_6 _step_7 _step_8
             _step_9 _step_10 _step_11 _step_12 _step_13 _step_14 _step_15
             _step_16 _step_17] in Hx; cbn [q_select] in Hx;
        repeat (apply elem_of_cons in Hx as [->|Hx];
          [ first [ by apply plain_priority | apply plain_los_diff
                  | exact Hadm | exact Hbirth | done ] |]);
        by apply elem_of_nil in Hx
      | apply forallb_elem; intros x Hx;
        cbv [_step_2 _step_3 _step_4 _step_5 _step_6 _step_7 _step_8
             _step_9 _step_10 _step_11 _step_12 _step_13 _step_14 _step_15
             _step_16 _step_17] in Hx; cbn [q_where] in Hx;
        apply elem_of_app in Hx as [Hx|Hx]; [|by apply Hex];
        repeat (apply elem_of_cons in Hx as [->|Hx];
          [ first [ done | apply sql_plain_los
                  | apply sql_plain_get; exact Hd ] |]);
        by apply elem_of_nil in Hx ]
    | cbn in Hf ]).
  done.
Qed.

(** ** Clients that honour the plain queries *)


Lemma on_plain_sound tbl client_query :
  client_honours tbl client_query → client_sound tbl (on_plain client_query).
Proof.
  intros Hh q rows. unfold on_plain.
  destruct (query_plain q) eqn:E; [by apply Hh|done].
Qed.

Lemma execute_on_plain client_query q :
  query_plain q = true →
  _execute_query (on_plain client_query) q = _execute_query client_query q.
Proof. intros Hq. unfold _execute_query, on_plain. by rewrite Hq. Qed.





Lemma trace_plain `{PyDatetime} client_query input_data n i q :
  request_plain input_data →
  search_trace client_query input_data n !! i = Some q →
  query_plain q = true.
Proof.
  intros Hd Hq.
  destruct (search_spec client_query input_data n) as (_ & Hspec & _).
  destruct (Hspec _ _ Hq) as (_ & f & Hf & ->). by eapply steps_plain.
Qed.

Lemma rows_before_on_plain `{PyDatetime} client_query input_data n k :
  request_plain input_data →
  rows_before (on_plain client_query)
    (search_trace client_query input_data n) k
  = rows_before client_query (search_trace client_query input_data n) k.
Proof.
  intros Hd. unfold rows_before. f_equal.
  apply list_fmap_ext. intros j q Hq. apply execute_on_plain.
  apply lookup_take_Some in Hq as [Hq _]. by eapply trace_plain.
Qed.

(** ** The cut

    Below the threshold test nothing is gathered, so the slice with
    Python's reading of a negative bound is the plain cut. *)

Lemma run_steps_stop `{PyDatetime} client_query n data fs st :
  n ≤ Z.of_nat (length (results st)) →
  run_steps client_query n data fs st = st.
Proof.
  intros Hn. destruct fs as [|f fs]; [done|]. simpl.
  by apply Z.leb_le in Hn as ->.
Qed.

Lemma no_query_without_demand `{PyDatetime} client_query input_data n :
  n ≤ 0 → final_state client_query input_data n = initial_state.
Proof. intros Hn. unfold final_state. apply run_steps_stop. simpl. lia. Qed.

Lemma outcome_length_le `{PyDatetime} client_query input_data n :
  0 ≤ n →
  (length (search_similar_admissions client_query input_data n)
   ≤ Z.to_nat n)%nat.
Proof.
  intros Hn. unfold search_similar_admissions. rewrite sort_by_perm.
  rewrite slice_to_nonneg by lia. rewrite length_take. lia.
Qed.

Lemma outcome_cut `{PyDatetime} client_query input_data n :
  Py.slice_to (accumulated client_query input_data n) n
  = take (Z.to_nat n) (accumulated client_query input_data n).
Proof.
  destruct (decide (0 ≤ n)) as [Hn|Hn]; [by apply slice_to_nonneg|].
  unfold accumulated. rewrite no_query_without_demand by lia.
  unfold Py.slice_to. cbn [results initial_state].
  by rewrite !take_nil, (proj2 (Z.leb_gt 0 n)) by lia.
Qed.

(** ** Claims about the driver *)



(** Claim C2.  A query is sent only while the rows gathered so far, and so
    also the distinct identifiers among them, are fewer than the requested
    maximum; hence the number of queries sent is at most the length of the
    first prefix of stages whose distinct matches reach the maximum, and
    never more than seventeen.  The query at position [i] is that of stage
    [i + 1]. *)
Theorem no_query_after_threshold `{PyDatetime}
    (client_query : Query → option (list Row))
    (input_data : InputData) (max_results : Z) :
  let trace := search_trace client_query input_data max_results in
  let distinct k : gset Z :=
    list_to_set (row_id <$> rows_before client_query trace k) in
  (∀ i q, trace !! i = Some q →
     Z.of_nat (size (distinct i)) < max_results ∧ q_step q = S i)
  ∧ (∀ k, max_results ≤ Z.of_nat (size (distinct k)) →
       (length trace ≤ k)%nat)
  ∧ (length trace ≤ 17)%nat.
Proof.
  intros trace distinct.
  assert (∀ i q, trace !! i = Some q →
            Z.of_nat (size (distinct i)) < max_results) as Hlt.
  { intros i q Hq.
    destruct (search_spec client_query input_data max_results)
      as (_ & Hspec & _).
    destruct (Hspec _ _ Hq) as (Hlen & _).
    pose proof (size_list_to_set_le
      (row_id <$> rows_before client_query trace i)) as Hsz.
    rewrite length_fmap in Hsz. unfold distinct, trace in *. lia. }
  split_and!.
  - intros i q Hq. split; [by eapply Hlt|by eapply trace_q_step].
  - intros k Hk. destruct (decide (length trace ≤ k)%nat) as [|Hn]; [done|].
    destruct (lookup_lt_is_Some_2 trace k) as [q Hq]; [lia|].
    specialize (Hlt _ _ Hq). lia.
  - apply trace_length.
Qed.

Lemma elem_of_concat {A} (x : A) (ls : list (list A)) :
  x ∈ concat ls ↔ ∃ l, x ∈ l ∧ l ∈ ls.
Proof.
  induction ls as [|l ls IH]; simpl.
  - split; [by intros ?%elem_of_nil|]. by intros (l & _ & ?%elem_of_nil).
  - rewrite elem_of_app, IH. split.
    + intros [Hx|(l' & Hx & Hl')]; [exists l|exists l'];
        split; auto using list_elem_of_here, list_elem_of_further.
    + intros (l' & Hx & [->|Hl']%elem_of_cons); [by left|right; eauto].
Qed.

(** The sort key of a row that carries the literal of stage [k]. *)
Lemma get_step_number_tag k r :
  (k ≤ 17)%nat → result_step r = step_tag k →
  get_step_number r = Z.of_nat k.
Proof.
  intros Hk Hr. unfold get_step_number. rewrite Hr.
  do 18 (destruct k as [|k]; [by vm_compute|]). lia.
Qed.


Lemma constant_key_sorted {A} (key : A → Z) c l :
  Forall (λ x, key x = c) l → StronglySorted (key_le key) l.
Proof.
  induction 1 as [|x l Hx Hl IH]; constructor; [done|].
  eapply Forall_impl; [exact Hl|]. unfold key_le. simpl. intros; lia.
Qed.

Section Skipping.
Context `{PyDatetime}.
Variable client_query : Query → option (list Row).

(** A stage whose query brings no rows, by failure or otherwise, leaves the
  gathered rows and identifiers as they were. *)
Lemma run_step_nothing data f st :
_execute_query client_query (f data (found_admission_ids st)) = [] →
run_step client_query data f st
= {| found_admission_ids := found_admission_ids st;
     results := results st;
     issued := issued st ++ [f data (found_admission_ids st)] |}.
Proof. intros Hq. unfold run_step. by rewrite Hq. Qed.

Lemma execute_failure q :
client_query q = None → _execute_query client_query q = [].
Proof. intros Hq. unfold _execute_query. by rewrite Hq. Qed.

Lemma run_steps_skip n data f fs st :
Z.of_nat (length (results st)) < n →
_execute_query client_query (f data (found_admission_ids st)) = [] →
run_steps client_query n data (f :: fs) st
= run_steps client_query n data fs
    {| found_admission_ids := found_admission_ids st;
       results := results st;
       issued := issued st ++ [f data (found_admission_ids st)] |}.
Proof.
intros Hlt Hq. simpl. apply Z.leb_gt in Hlt as ->.
by rewrite run_step_nothing.
Qed.

(** A stage whose rows bring the total to the requested maximum ends the
  loop. *)
Lemma run_steps_reach n data f fs st rows :
Z.of_nat (length (results st)) < n →
_execute_query client_query (f data (found_admission_ids st)) = rows →
n ≤ Z.of_nat (length (results st ++ rows)) →
run_steps client_query n data (f :: fs) st
= {| found_admission_ids :=
       found_admission_ids st ∪ list_to_set (row_id <$> rows);
     results := results st ++ rows;
     issued := issued st ++ [f data (found_admission_ids st)] |}.
Proof.
intros Hlt Hq Hge. simpl. apply Z.leb_gt in Hlt as Hlt'. rewrite Hlt'.
assert (run_step client_query data f st
        = {| found_admission_ids :=
               found_admission_ids st ∪ list_to_set (row_id <$> rows);
             results := results st ++ rows;
             issued := issued st ++ [f data (found_admission_ids st)] |})
  as ->.
{ unfold run_step. rewrite Hq. destruct rows; [|done].
  rewrite app_nil_r in Hge. lia. }
destruct fs as [|g fs]; [done|]. simpl.
by apply Z.leb_le in Hge as ->.
Qed.

End Skipping.

(** Claim C3.  The outcome is the list of gathered rows cut at the requested
    maximum and then sorted: it holds at most [max_results] rows, it is a
    permutation of the first [max_results] gathered rows, it is ascending
    in the stage number read from [result_step], and rows with the same
    stage number keep the order in which they were gathered; all of this
    whatever the client answers.  For a plain request and a client that
    honours the plain queries, the stage number read from a row is the
    number of the stage whose query returned it. *)
Theorem final_outcome_stable_sorted `{PyDatetime}
    (client_query : Query → option (list Row))
    (input_data : InputData) (max_results : Z) :
  let out := search_similar_admissions client_query input_data max_results in
  let capped :=
    take (Z.to_nat max_results)
      (accumulated client_query input_data max_results) in
  (length out ≤ Z.to_nat max_results)%nat
  ∧ out ≡ₚ capped
  ∧ StronglySorted (key_le get_step_number) out
  ∧ (∀ k, filter (λ r, get_step_number r = k) out
          = filter (λ r, get_step_number r = k) capped)
  ∧ (∀ tbl, client_honours tbl client_query → request_plain input_data →
       ∀ r, r ∈ out →
         ∃ i q,
           search_trace client_query input_data max_results !! i = Some q
           ∧ r ∈ _execute_query client_query q
           ∧ get_step_number r = Z.of_nat (S i)).
Proof.
  intros out capped.
  assert (out = sort_by get_step_number capped) as Hout.
  { unfold out, capped, search_similar_admissions.
    fold (accumulated client_query input_data max_results).
    by rewrite outcome_cut. }
  split_and!.
  - rewrite Hout, sort_by_perm. unfold capped. rewrite length_take. lia.
  - rewrite Hout. apply sort_by_perm.
  - rewrite Hout. apply sort_by_sorted.
  - intros k. rewrite Hout. apply sort_by_filter.
  - intros tbl Hh Hd r Hr. rewrite Hout, sort_by_perm in Hr.
    assert (r ∈ accumulated client_query input_data max_results) as Hacc.
    { eapply elem_of_sublist; [exact Hr|apply sublist_take]. }
    destruct (search_spec client_query input_data max_results) as (Ha & _).
    rewrite Ha in Hacc.
    apply elem_of_concat in Hacc as (rows & Hin & Hrows).
    apply list_elem_of_fmap in Hrows as (q & -> & Hq).
    apply list_elem_of_lookup in Hq as [i Hi].
    exists i, q. split_and!; [done..|].
    pose proof (trace_plain _ _ _ _ _ Hd Hi) as Hplain.
    rewrite <- (execute_on_plain client_query q Hplain) in Hin.
    destruct (exec_matching tbl (on_plain client_query)
                (on_plain_sound _ _ Hh) _ _ Hin) as (_ & _ & Htag).
    rewrite (trace_q_step _ _ _ _ _ Hi) in Htag.
    apply get_step_number_tag; [|done].
    apply lookup_lt_Some in Hi.
    pose proof (trace_length client_query input_data max_results). lia.
Qed.



(** Claim C8.  The list the driver holds when the loop ends is the answers
    of the queries sent, in order, an exception counting as no rows.  When
    the client raises on the query of a stage, the loop body leaves the
    rows and the identifiers held as they were; the rows held before the
    failing stage are still held when the loop ends, and unless it was the
    last stage the query of the next stage is sent: the search goes on and
    returns its outcome.  In particular, with a requested maximum of
    three, if stages one to five find nothing, the query of stage six
    raises and stage seven returns three rows carrying its literal, the
    outcome is exactly these three rows. *)
Theorem stage_failure_contained `{PyDatetime}
    (client_query : Query → option (list Row))
    (input_data : InputData) (max_results : Z) :
  let trace := search_trace client_query input_data max_results in
  let data := _calculate_age_and_los input_data in
  let held := accumulated client_query input_data max_results in
  held = concat (_execute_query client_query <$> trace)
  ∧ (∀ f st, client_query (f data (found_admission_ids st)) = None →
       results (run_step client_query data f st) = results st
       ∧ found_admission_ids (run_step client_query data f st)
         = found_admission_ids st)
  ∧ (∀ i q, trace !! i = Some q → client_query q = None →
       rows_before client_query trace (S i) = rows_before client_query trace i
       ∧ rows_before client_query trace i `prefix_of` held
       ∧ ((i < 16)%nat → is_Some (trace !! S i)))
  ∧ (∀ rows,
       max_results = 3 →
       (∀ k f, (k < 5)%nat → steps !! k = Some f →
          _execute_query client_query (f data ∅) = []) →
       client_query (_step_6 data ∅) = None →
       client_query (_step_7 data ∅) = Some rows →
       length rows = 3%nat →
       Forall (λ r, result_step r = step_tag 7) rows →
       search_similar_admissions client_query input_data max_results = rows
       ∧ held = rows
       ∧ length trace = 7%nat).
Proof.
  intros trace data held. split_and!.
  - by destruct (search_spec client_query input_data max_results) as (? & _).
  - intros f st Hfail. unfold run_step, _execute_query. by rewrite Hfail.
  - intros i q Hq Hfail.
    assert (rows_before client_query trace (S i)
            = rows_before client_query trace i) as Heq.
    { unfold trace. rewrite (before_S _ _ _ _ _ Hq).
      by rewrite execute_failure, app_nil_r. }
    split_and!; [done| |].
    { destruct (search_spec client_query input_data max_results)
        as (Hacc & _).
      unfold held. rewrite Hacc. unfold rows_before. fold trace.
      rewrite <- (take_drop i trace) at 2.
      rewrite fmap_app, concat_app. by apply prefix_app_r. }
    intros Hi.
    destruct (search_spec client_query input_data max_results)
      as (_ & Hspec & Hend).
    destruct (Hspec _ _ Hq) as (Hlt & _).
    destruct (trace !! S i) as [q'|] eqn:Hnext; [by eexists|].
    apply lookup_ge_None in Hnext. apply lookup_lt_Some in Hq.
    destruct Hend as [Hlen|Hge]; [unfold trace in *; lia|].
    rewrite <- (before_all client_query input_data max_results (S i)) in Hge
      by done.
    fold trace in Hge, Hlt. rewrite Heq in Hge. lia.
  - intros rows -> Hnone Hfail Hseven Hlen Htags.
    assert (final_state client_query input_data 3
            = {| found_admission_ids := list_to_set (row_id <$> rows);
                 results := rows;
                 issued := issued (final_state client_query input_data 3) |}
            ∧ length (issued (final_state client_query input_data 3)) = 7%nat)
      as [Hfinal Hseven_sent].
    { unfold final_state, steps. fold data.
      rewrite run_steps_skip;
        [|done|apply (Hnone 0%nat (λ d _, _step_1 d)); [lia|done]].
      rewrite run_steps_skip;
        [|done|apply (Hnone 1%nat _step_2); [lia|done]].
      rewrite run_steps_skip;
        [|done|apply (Hnone 2%nat _step_3); [lia|done]].
      rewrite run_steps_skip;
        [|done|apply (Hnone 3%nat _step_4); [lia|done]].
      rewrite run_steps_skip;
        [|done|apply (Hnone 4%nat _step_5); [lia|done]].
      rewrite run_steps_skip; [|done|by apply execute_failure].
      erewrite run_steps_reach; [|done| |].
      2: { unfold _execute_query.
           cbn [found_admission_ids initial_state]. by rewrite Hseven. }
      2: { cbn [results initial_state app]. rewrite Hlen. done. }
      cbn [results found_admission_ids issued initial_state app].
      split; [|done]. f_equal. by rewrite union_empty_l_L. }
    split_and!; [|unfold held, accumulated; by rewrite Hfinal
                |exact Hseven_sent].
    unfold search_similar_admissions. rewrite Hfinal. simpl results.
    rewrite slice_to_nonneg by done.
    rewrite take_ge by (rewrite Hlen; simpl; lia).
    apply sort_by_sorted_id.
    apply (constant_key_sorted _ 7).
    eapply Forall_impl; [exact Htags|]. simpl. intros r Hr.
    apply (get_step_number_tag 7 r); [lia|done].
Qed.

(** ** Claims about the normaliser *)

Lemma truthy_empty s : Py.truthy s = false ↔ s = "".
Proof. by destruct s. Qed.

Lemma calculate_try_ok `{PyDatetime} input_data sa sb a b :
  fields input_data !! "admission_date" = Some sa →
  parse_datetime sa = Some a →
  fields input_data !! "birthdate" = Some sb →
  strptime sb "%Y-%m-%d" = Some b →
  discharge_ok input_data →
  ∃ los,
    calculate_try input_data
    = Some {| input := input_data;
              calculated_age := age_between a b;
              calculated_los := los;
              formatted_admission_date := strftime a "%Y-%m-%d %H:%M:%S";
              formatted_birth_date := strftime b "%Y-%m-%d" |}
    ∧ los = (if Py.truthy (get input_data "discharge_date")
             then match parse_datetime (get input_data "discharge_date") with
                  | Some d => LosDays (date_diff_days d a)
                  | None => LosEmpty
                  end
             else LosEmpty).
Proof.
  intros Ha Hpa Hb Hpb Hd. unfold calculate_try.
  rewrite Ha. simpl. rewrite Hpa. simpl. rewrite Hb. simpl. rewrite Hpb. simpl.
  destruct (Py.truthy (get input_data "discharge_date")) eqn:Et; simpl.
  - destruct Hd as [Hd|[d Hd]].
    + rewrite Hd in Et. done.
    + rewrite Hd. simpl. eexists. split; [|done].
      unfold age_between. by destruct (pair_ltb _ _); do 2 f_equal; lia.
  - eexists. split; [|done].
    unfold age_between. by destruct (pair_ltb _ _); do 2 f_equal; lia.
Qed.

(** Claim C6, as amended.  When the admission date and the birth date are
    readable and the discharge date is absent, empty or readable, the
    derived age is the difference of the years, less one when the month
    and day of the admission come before those of the birth; it is the
    number of birthdays reached by the admission day. *)
Theorem age_at_admission `{PyDatetime}
    (input_data : InputData) (sa sb : string) (a b : datetime) :
  fields input_data !! "admission_date" = Some sa →
  parse_datetime sa = Some a →
  fields input_data !! "birthdate" = Some sb →
  strptime sb "%Y-%m-%d" = Some b →
  discharge_ok input_data →
  let n := calculated_age (_calculate_age_and_los input_data) in
  n = year a - year b
      - (if pair_ltb (month a, day a) (month b, day b) then 1 else 0)
  ∧ ymd_le (year b + n, month b, day b) (year a, month a, day a)
  ∧ ¬ ymd_le (year b + n + 1, month b, day b) (year a, month a, day a).
Proof.
  intros Ha Hpa Hb Hpb Hd.
  destruct (calculate_try_ok _ _ _ _ _ Ha Hpa Hb Hpb Hd) as (los & Htry & _).
  unfold _calculate_age_and_los. rewrite Htry. simpl.
  unfold age_between, pair_ltb, ymd_le. simpl.
  destruct (month a <? month b) eqn:E1; simpl.
  - apply Z.ltb_lt in E1. lia.
  - apply Z.ltb_ge in E1.
    destruct (month a =? month b) eqn:E2; simpl.
    + apply Z.eqb_eq in E2.
      destruct (day a <? day b) eqn:E3;
        [apply Z.ltb_lt in E3|apply Z.ltb_ge in E3]; lia.
    + apply Z.eqb_neq in E2. lia.
Qed.

(** Claim C7, as amended.  When the admission, birth and discharge dates
    are all readable, the stay is the difference in whole days between the
    discharge day and the admission day.  Without a discharge date the stay
    is the empty string, which is not the number 0, and then every stage
    that orders by [los_diff] computes that column as the constant 0. *)
Theorem stay_duration `{PyDatetime}
    (input_data : InputData) (sa sb : string) (a b d : datetime) :
  let data := _calculate_age_and_los input_data in
  (fields input_data !! "admission_date" = Some sa →
   parse_datetime sa = Some a →
   fields input_data !! "birthdate" = Some sb →
   strptime sb "%Y-%m-%d" = Some b →
   get input_data "discharge_date" ≠ "" →
   parse_datetime (get input_data "discharge_date") = Some d →
   calculated_los data = LosDays (toordinal d - toordinal a))
  ∧ (get input_data "discharge_date" = "" →
     calculated_los data = LosEmpty
     ∧ LosEmpty ≠ LosDays 0
     ∧ ∀ i f found, steps !! i = Some f → (4 ≤ i)%nat →
         ∃ e, SelExpr "los_diff" e ∈ q_select (f data found)
              ∧ ("los_diff", ASC) ∈ q_order_by (f data found)
              ∧ ∀ r, eval_n e r = 0%Q).
Proof.
  intros data. split.
  - intros Ha Hpa Hb Hpb Hne Hpd.
    destruct (calculate_try_ok _ _ _ _ _ Ha Hpa Hb Hpb) as (los & Htry & ->).
    { right. by rewrite Hpd. }
    unfold data, _calculate_age_and_los. rewrite Htry. simpl.
    rewrite Hpd. destruct (Py.truthy _) eqn:Et; [done|].
    by apply truthy_empty in Et.
  - intros Hempty.
    assert (calculated_los data = LosEmpty) as Hlos.
    { unfold data, _calculate_age_and_los, calculate_try.
      rewrite Hempty. simpl.
      repeat (match goal with
              | |- context [?o ≫= _] => destruct o; simpl
              end); done. }
    split_and!; [done|done|].
    intros i f found Hf Hi.
    exists (NLit 0).
    assert (los_diff data = SelExpr "los_diff" (NLit 0)) as Hsel.
    { unfold los_diff, _get_los_diff_calculation. by rewrite Hlos. }
    unfold steps in Hf.
    do 4 (destruct i as [|i]; [lia|]).
    do 13 (destruct i as [|i];
      [ cbn in Hf; simplify_eq;
        cbv [_step_5 _step_6 _step_7 _step_8 _step_9 _step_10 _step_11
             _step_12 _step_13 _step_14 _step_15 _step_16 _step_17];
        cbn [q_select q_order_by]; rewrite Hsel;
        split_and!; [set_solver|cbn; set_solver|done]
      | cbn in Hf ]).
    done.
Qed.

(** ** Claims about the request gate *)

Lemma existsb_false {A} (f : A → bool) l :
  (∀ x, x ∈ l → f x = false) → existsb f l = false.
Proof.
  induction l as [|x l IH]; intros Hf; simpl; [done|].
  rewrite (Hf x) by apply list_elem_of_here.
  apply IH. intros y Hy. apply Hf. by apply list_elem_of_further.
Qed.

Lemma existsb_true {A} (f : A → bool) l x :
  x ∈ l → f x = true → existsb f l = true.
Proof.
  intros Hx Hf. apply existsb_exists. exists x.
  split; [by apply list_elem_of_In|done].
Qed.

Lemma validated_keys_structured k :
  k ∈ validated_keys → k ∈ structured_keys.
Proof.
  unfold validated_keys, structured_keys. intros Hk.
  repeat (apply elem_of_cons in Hk as [->|Hk]; [set_solver|]).
  by apply elem_of_nil in Hk.
Qed.

Lemma any_values_supplied payload :
  (∃ k, k ∈ validated_keys ∧ supplied payload k = true)
  ∨ supplied_list (req_icd10 payload) = true
  ∨ supplied_list (req_icd9 payload) = true →
  any_values (_extract_structured_data payload) = true.
Proof.
  unfold any_values. intros [(k & Hk & Hs)|[Hl|Hl]].
  - unfold supplied in Hs.
    destruct (strings payload !! k) as [s|] eqn:Es; [|done].
    apply orb_true_intro. left. apply orb_true_intro. left.
    apply (existsb_true _ _ s); [|done].
    apply list_elem_of_fmap. exists (k, s). split; [done|].
    apply elem_of_map_to_list. simpl.
    apply map_lookup_filter_Some. split; [done|]. simpl.
    split; [by apply validated_keys_structured|]. by destruct s.
  - apply orb_true_intro. left. apply orb_true_intro. right.
    apply bool_decide_eq_true. simpl.
    by destruct (req_icd10 payload) as [[|]|].
  - apply orb_true_intro. right.
    apply bool_decide_eq_true. simpl.
    by destruct (req_icd9 payload) as [[|]|].
Qed.

Lemma first_query_sent `{PyDatetime} client_query input_data n :
  1 ≤ n →
  search_trace client_query input_data n !! 0%nat
  = Some (_step_1 (_calculate_age_and_los input_data)).
Proof.
  intros Hn.
  destruct (search_spec client_query input_data n) as (Hacc & Hspec & Hend).
  destruct (search_trace client_query input_data n) as [|q tr] eqn:Etr.
  - exfalso. rewrite Hacc in Hend. simpl in Hend.
    destruct Hend as [?|?]; [done|lia].
  - destruct (Hspec 0%nat q eq_refl) as (_ & f & Hf & ->).
    by injection Hf as <-.
Qed.

(** Claim C9, as amended.  A request in which no structured field is
    supplied is rejected and no stage query is sent.  A request without a
    free-text query, with [max_results] absent or between 1 and 20 and with
    at least one non-empty field among those the schema validator lists,
    reaches the search, whose first stage query is sent. *)
Theorem request_gate `{PyDatetime}
    (client_query : Query → option (list Row))
    (payload : UnifiedSearchRequest) :
  ((∀ k, k ∈ structured_keys → supplied payload k = false) →
   supplied_list (req_icd10 payload) = false →
   supplied_list (req_icd9 payload) = false →
   ∃ e, unified_search client_query payload = (Rejected e, []))
  ∧ (query payload = None →
     1 ≤ default 3 (max_results payload) ≤ 20 →
     (∃ k, k ∈ validated_keys ∧ supplied payload k = true)
     ∨ supplied_list (req_icd10 payload) = true
     ∨ supplied_list (req_icd9 payload) = true →
     let structured_data := _extract_structured_data payload in
     let n := default 3 (max_results payload) in
     unified_search client_query payload
     = (Completed (search_similar_admissions client_query structured_data n),
        search_trace client_query structured_data n)
     ∧ search_trace client_query structured_data n !! 0%nat
       = Some (_step_1 (_calculate_age_and_los structured_data))).
Proof.
  split.
  - intros Hnone H10 H9. unfold unified_search.
    destruct (schema_accepts payload) eqn:Es; [|by eexists].
    unfold unified_search_with_billing.
    destruct (supplied_query payload) eqn:Eq; [by eexists|].
    exfalso. unfold schema_accepts, validate_unified_fields in Es.
    rewrite Eq, H10, H9, existsb_false in Es; [done|].
    intros k Hk. by apply Hnone, validated_keys_structured.
  - intros Hq Hn Hsome structured_data n.
    split; [|apply first_query_sent; unfold n; lia].
    unfold unified_search.
    assert (schema_accepts payload = true) as ->.
    { unfold schema_accepts. apply andb_true_intro. split.
      - unfold validate_unified_fields.
        apply negb_true_iff, andb_false_intro2, negb_false_iff.
        destruct Hsome as [(k & Hk & Hs)|[->| ->]];
          [|by rewrite orb_true_r|by rewrite orb_true_r].
        by rewrite (existsb_true _ _ k Hk Hs).
      - unfold field_constraints. rewrite Hq.
        by rewrite bool_decide_eq_true_2. }
    unfold unified_search_with_billing, supplied_query. rewrite Hq.
    by rewrite any_values_supplied.
Qed.

(** ** Claims about the stage filters *)


Lemma unsupplied_text data key :
  fields (input data) !! key = None ∨ fields (input data) !! key = Some "" →
  get (input data) key = "".
Proof. unfold get. by intros [-> | ->]. Qed.






(** ** Claims about code matching *)

Lemma append_nil_r s : s +:+ "" = s.
Proof.
  induction s as [|c s IH]; [done|].
  cbv [String.append]. fold String.append. by rewrite IH.
Qed.

Lemma append_cons c s r : String c s +:+ r = String c (s +:+ r).
Proof. done. Qed.

Lemma eqb_false_ne (c d : ascii) : Ascii.eqb c d = false → c ≠ d.
Proof. by intros ?%Ascii.eqb_neq. Qed.

Lemma contains_char_cons c d s :
  Py.contains_char c (String d s) = false →
  Ascii.eqb c d = false ∧ Py.contains_char c s = false.
Proof. simpl. by destruct (Ascii.eqb c d). Qed.

(** *** Exact matching *)

Lemma join_cons x l : Py.join "; " (x :: l) = x +:+ join_rest l.
Proof. destruct l; simpl; [by rewrite append_nil_r|done]. Qed.

Lemma join_rest_shape l :
  join_rest l = "" ∨ ∃ t, join_rest l = String ";" t.
Proof. destruct l; [by left|right]. by eexists. Qed.

Lemma append_separator_inj x x' r r' :
  semicolon_free x → semicolon_free x' →
  (r = "" ∨ ∃ t, r = String ";" t) →
  (r' = "" ∨ ∃ t, r' = String ";" t) →
  x +:+ r = x' +:+ r' → x = x' ∧ r = r'.
Proof.
  unfold semicolon_free. revert x'.
  induction x as [|c x IH]; intros [|c' x'] Hx Hx' Hr Hr' Heq.
  - done.
  - apply contains_char_cons in Hx' as [Hc _]. apply eqb_false_ne in Hc.
    change ("" +:+ r) with r in Heq. rewrite append_cons in Heq.
    destruct Hr as [->|[t ->]]; [done|]. congruence.
  - apply contains_char_cons in Hx as [Hc _]. apply eqb_false_ne in Hc.
    change ("" +:+ r') with r' in Heq. rewrite append_cons in Heq.
    destruct Hr' as [->|[t ->]]; [done|]. congruence.
  - apply contains_char_cons in Hx as [_ Hx].
    apply contains_char_cons in Hx' as [_ Hx'].
    rewrite !append_cons in Heq. injection Heq as -> Heq.
    destruct (IH x' Hx Hx' Hr Hr' Heq) as [-> ->]. done.
Qed.

(** Joining is injective on non-empty lists of codes without semicolons. *)
Lemma join_inj l1 l2 :
  l1 ≠ [] → l2 ≠ [] →
  Forall semicolon_free l1 → Forall semicolon_free l2 →
  Py.join "; " l1 = Py.join "; " l2 → l1 = l2.
Proof.
  revert l2. induction l1 as [|x l1 IH]; intros [|y l2] H1 H2 F1 F2 Heq;
    try done.
  apply Forall_cons in F1 as [Fx F1]. apply Forall_cons in F2 as [Fy F2].
  rewrite !join_cons in Heq.
  apply append_separator_inj in Heq as [-> Hrest];
    [|done|done|apply join_rest_shape..].
  f_equal. destruct l1 as [|x1 l1], l2 as [|y2 l2]; try done.
  apply IH; try done. unfold join_rest in Hrest.
  by apply (inj (String.append "; ")) in Hrest.
Qed.

Lemma exact_filter_spec f codes a :
  codes ≠ [] →
  eval_b (exact_filter f codes) a = true ↔ col a f = Py.join "; " codes.
Proof.
  intros Hne. destruct codes as [|c codes]; [done|].
  unfold exact_filter, build_exact_codes_string. simpl eval_b.
  by rewrite bool_decide_eq_true.
Qed.

(** Claim C4, as amended.  For a non-empty list of codes that hold neither
    a quote nor a backslash the exact filter of a family accepts exactly
    the rows whose code column equals the codes joined, in the order given,
    with a semicolon followed by a space.  The match depends on the order:
    two different non-empty lists of such codes without semicolons, such as
    a list and a reordering of it, never accept the same row.  The mixed
    and the procedure-only exact modes use the same filter for the
    procedure family. *)
Theorem exact_filter_joined (d d' : InputData) (a : Admission) :
  (icd10 d ≠ [] → plain_codes (icd10 d) →
   eval_b (icd10_filter d exact) a = true
   ↔ col a DiseaseClassification = Py.join "; " (icd10 d))
  ∧ (icd9 d ≠ [] → plain_codes (icd9 d) →
     eval_b (icd9_filter d exact) a = true
     ↔ col a ProcedureClassification = Py.join "; " (icd9 d))
  ∧ (icd10 d ≠ [] → icd10 d' ≠ [] →
     plain_codes (icd10 d) → plain_codes (icd10 d') →
     Forall semicolon_free (icd10 d) → Forall semicolon_free (icd10 d') →
     icd10 d ≠ icd10 d' →
     eval_b (icd10_filter d exact) a = true →
     eval_b (icd10_filter d' exact) a = false)
  ∧ (icd9 d ≠ [] → icd9 d' ≠ [] →
     plain_codes (icd9 d) → plain_codes (icd9 d') →
     Forall semicolon_free (icd9 d) → Forall semicolon_free (icd9 d') →
     icd9 d ≠ icd9 d' →
     eval_b (icd9_filter d exact) a = true →
     eval_b (icd9_filter d' exact) a = false)
  ∧ icd9_filter d mixed = icd9_filter d exact
  ∧ icd9_filter d icd9_only_exact = icd9_filter d exact.
Proof.
  assert (∀ f l l', l ≠ [] → l' ≠ [] →
            Forall semicolon_free l → Forall semicolon_free l' → l ≠ l' →
            eval_b (exact_filter f l) a = true →
            eval_b (exact_filter f l') a = false) as Hdiff.
  { intros f l l' Hl Hl' Fl Fl' Hne Hacc.
    apply exact_filter_spec in Hacc; [|done].
    apply not_true_is_false. intros Hacc'.
    apply exact_filter_spec in Hacc'; [|done].
    apply Hne, join_inj; try done. congruence. }
  split_and!;
    [ intros Hne _; by apply exact_filter_spec
    | intros Hne _; by apply exact_filter_spec
    | intros Hl Hl' _ _; by apply Hdiff
    | intros Hl Hl' _ _; by apply Hdiff
    | done | done ].
Qed.

(** *** Partial matching *)

Lemma any_suffix_unfold f s :
  any_suffix f s
  = f s || match s with EmptyString => false | String _ t => any_suffix f t end.
Proof. by destruct s. Qed.

Lemma any_suffix_ext f g s :
  (∀ t, f t = g t) → any_suffix f s = any_suffix g s.
Proof.
  intros Hfg. induction s as [|c s IH];
    rewrite (any_suffix_unfold f), (any_suffix_unfold g), Hfg; [done|].
  by rewrite IH.
Qed.

Lemma like_percent_end t : like "%" t = true.
Proof.
  change (like "%" t) with (any_suffix (like "") t).
  induction t as [|c t IH]; [done|].
  rewrite any_suffix_unfold, IH. apply orb_true_r.
Qed.

Lemma like_plain_cons c s :
  like_plain (String c s) →
  Ascii.eqb c "%" = false ∧ Ascii.eqb c "_" = false ∧ like_plain s.
Proof.
  intros [[H1 H1']%contains_char_cons [H2 H2']%contains_char_cons].
  rewrite Ascii.eqb_sym in H1. rewrite Ascii.eqb_sym in H2. done.
Qed.

(** A pattern made of a code without wildcards and a final [%] matches the
    texts that start with the code. *)
Lemma like_prefix c t :
  like_plain c → like (c +:+ "%") t = Py.startswith c t.
Proof.
  revert t. induction c as [|x c IH]; intros t Hc.
  - change ("" +:+ "%") with "%". rewrite like_percent_end. by destruct t.
  - apply like_plain_cons in Hc as (Hp & Hu & Hc).
    rewrite append_cons. cbn [like]. rewrite Hp.
    destruct t as [|y t]; [done|]. rewrite Hu. cbn [Py.startswith orb].
    by rewrite IH.
Qed.

(** [f LIKE '%code%'] is containment for a code without wildcards. *)
Lemma like_contains c s :
  like_plain c → like ("%" +:+ c +:+ "%") s = substringb c s.
Proof.
  intros Hc.
  change (like ("%" +:+ c +:+ "%") s) with (any_suffix (like (c +:+ "%")) s).
  apply any_suffix_ext. intros t. by apply like_prefix.
Qed.

Lemma startswith_spec p s :
  Py.startswith p s = true ↔ ∃ post, s = p +:+ post.
Proof.
  revert s. induction p as [|a p IH]; intros s.
  - split; [by exists s|done].
  - destruct s as [|b s]; simpl.
    + split; [done|]. by intros [post ?].
    + rewrite andb_true_iff, IH. split.
      * intros [->%Ascii.eqb_eq [post ->]]. by exists post.
      * intros [post Heq]. rewrite append_cons in Heq.
        injection Heq as -> ->. split; [apply Ascii.eqb_refl|by eexists].
Qed.

(** [substringb] decides occurrence as a substring. *)
Lemma substringb_spec c s :
  substringb c s = true ↔ ∃ pre post, s = pre +:+ c +:+ post.
Proof.
  unfold substringb. induction s as [|a s IH].
  - rewrite any_suffix_unfold, orb_false_r, startswith_spec. split.
    + intros [post ->]. by exists "", post.
    + intros ([|x pre] & post & Heq); [by exists post|done].
  - rewrite any_suffix_unfold, orb_true_iff, IH, startswith_spec. split.
    + intros [[post ->]|(pre & post & ->)].
      * by exists "", post.
      * by exists (String a pre), post.
    + intros ([|x pre] & post & Heq).
      * left. by exists post.
      * right. rewrite append_cons in Heq. injection Heq as -> ->.
        by exists pre, post.
Qed.

(** *** The score expression *)

Lemma eval_like_case f c a :
  like_plain c →
  eval_n (like_case f c) a
  = if substringb c (col a f) then 1%Q else 0%Q.
Proof.
  intros Hc. unfold like_case. cbn [eval_n eval_b].
  by rewrite like_contains.
Qed.

Lemma matched_codes_cons c codes s :
  matched_codes (c :: codes) s
  = ((if substringb c s then 1 else 0) + matched_codes codes s)%nat.
Proof.
  unfold matched_codes. rewrite filter_cons.
  destruct (substringb c s); by case_decide.
Qed.

Lemma eval_fold_add f codes acc a :
  Forall like_plain codes →
  (eval_n (fold_left NAdd (like_case f <$> codes) acc) a
   == eval_n acc a + inject_Z (Z.of_nat (matched_codes codes (col a f))))%Q.
Proof.
  revert acc. induction codes as [|c codes IH]; intros acc Hall.
  - simpl. unfold matched_codes. simpl. ring.
  - apply Forall_cons in Hall as [Hc Hall].
    simpl fold_left. rewrite (IH _ Hall).
    change (eval_n (NAdd ?x ?y) ?r) with (eval_n x r + eval_n y r)%Q.
    rewrite (eval_like_case _ _ _ Hc). rewrite matched_codes_cons.
    rewrite Nat2Z.inj_add, inject_Z_plus.
    destruct (substringb c (col a f)); simpl; ring.
Qed.

Lemma eval_sum_join f codes a :
  Forall like_plain codes →
  (eval_n (sum_join (like_case f <$> codes)) a
   == inject_Z (Z.of_nat (matched_codes codes (col a f))))%Q.
Proof.
  intros Hall. destruct codes as [|c codes]; [done|].
  apply Forall_cons in Hall as [Hc Hall].
  simpl fmap. unfold sum_join. rewrite (eval_fold_add _ _ _ _ Hall).
  rewrite (eval_like_case _ _ _ Hc), matched_codes_cons.
  rewrite Nat2Z.inj_add, inject_Z_plus.
  destruct (substringb c (col a f)); simpl; ring.
Qed.

Lemma replace_char_length c s :
  (String.length (Py.replace_char c "" s) + count_char c s
   = String.length s)%nat.
Proof.
  induction s as [|x s IH]; [done|]. cbn [Py.replace_char count_char].
  destruct (Ascii.eqb c x).
  - change ("" +:+ ?t) with t. cbn [String.length]. lia.
  - cbn [String.length]. lia.
Qed.

Lemma split_go_length c cur s :
  length (Py.split_go c cur s) = (count_char c s + 1)%nat.
Proof.
  revert cur. induction s as [|x s IH]; intros cur; [done|].
  cbn [Py.split_go count_char]. destruct (Ascii.eqb c x); simpl; rewrite IH; lia.
Qed.

(** The stored field holds one more piece than it holds semicolons. *)
Lemma delimited_count_semicolons s :
  delimited_count s = (count_char ";" s + 1)%nat.
Proof. apply split_go_length. Qed.

Lemma eval_code_count_penalty f n a :
  eval_n (code_count_penalty f n) a
  = if bool_decide (n < delimited_count (col a f))%nat
    then (- (1 # 10))%Q else 0%Q.
Proof.
  unfold code_count_penalty. cbn [eval_n eval_b eval_s].
  pose proof (replace_char_length ";" (col a f)) as Hlen.
  rewrite delimited_count_semicolons.
  set (l := String.length (col a f)) in *.
  set (l' := String.length (Py.replace_char ";" "" (col a f))) in *.
  destruct (Qle_bool _ _) eqn:E.
  - apply Qle_bool_iff in E. rewrite bool_decide_eq_false_2; [done|].
    unfold Qle in E. simpl in E. lia.
  - rewrite bool_decide_eq_true_2; [done|].
    destruct (decide (n < count_char ";" (col a f) + 1)%nat) as [|Hn]; [done|].
    exfalso. apply not_true_iff_false in E. apply E, Qle_bool_iff.
    unfold Qle. simpl. lia.
Qed.

Lemma eval_build_enhanced_score codes f a :
  Forall like_plain codes →
  (eval_n (build_enhanced_score codes f) a == count_score codes (col a f))%Q.
Proof.
  intros Hall. destruct codes as [|c codes]; [done|].
  unfold build_enhanced_score, count_score.
  change (eval_n (NAdd ?x ?y) ?r) with (eval_n x r + eval_n y r)%Q.
  by rewrite eval_sum_join, eval_code_count_penalty.
Qed.

(** Claim C5, as amended.  In the partial and mixed modes, for a code list
    whose codes hold none of [%], [_], the quote and the backslash, the
    score of a family is the number of codes that occur in the stored field
    as substrings, less 0.1 when the field holds more semicolon-separated
    pieces than codes were requested; for an empty code list the score is
    the constant 0. *)
Theorem partial_score (d : InputData) (a : Admission) (t : step_type) :
  t = partial ∨ t = mixed →
  Forall like_plain (icd10 d) → plain_codes (icd10 d) →
  Forall like_plain (icd9 d) → plain_codes (icd9 d) →
  (eval_n (icd10_score d t) a
   == count_score (icd10 d) (col a DiseaseClassification))%Q
  ∧ (eval_n (icd9_score d t) a
     == count_score (icd9 d) (col a ProcedureClassification))%Q
  ∧ (icd10 d = [] → icd10_score d t = NLit 0)
  ∧ (icd9 d = [] → icd9_score d t = NLit 0).
Proof.
  intros [-> | ->] H10 _ H9 _;
    (split_and!;
     [ by apply eval_build_enhanced_score
     | by apply eval_build_enhanced_score
     | intros Hnil; unfold icd10_score, _calculate_icd_scores; simpl;
       by rewrite Hnil
     | intros Hnil; unfold icd9_score, _calculate_icd_scores; simpl;
       by rewrite Hnil ]).
Qed.

(** * Worked instances *)

(** The whole cascade on the demonstration table: stage 1 finds the full
    match, stage 7 the three admissions of the ward, stage 11 the remaining
    one. *)
Example demo_outcome :
  (λ r, (row_id r, result_step r)) <$> demo_search [] demo_table 10
  = [ (201, "STEP_1"); (101, "STEP_7"); (102, "STEP_7"); (103, "STEP_7");
      (104, "STEP_11") ]
  ∧ length (demo_trace [] demo_table 10) = 17%nat.
Proof. by vm_compute. Qed.



Lemma no_query_after_threshold_witness :
  is_Some (demo_trace [] demo_table 4 !! 6%nat)
  ∧ (length (demo_trace [] demo_table 4) ≤ 7)%nat.
Proof.
  split; [by vm_compute; eexists|].
  apply (proj1 (proj2 (no_query_after_threshold (H := Canonical.datetime_lib)
                         (scan_client [] demo_table) demo_input 4)) 7%nat).
  by vm_compute.
Defined.

Lemma final_outcome_stable_sorted_witness :
  (length (search_similar_admissions (H := Canonical.datetime_lib)
             (scan_client [] demo_table) demo_input 3) ≤ 3)%nat
  ∧ StronglySorted (key_le get_step_number)
      (search_similar_admissions (H := Canonical.datetime_lib)
         (scan_client [] demo_table) demo_input 3).
Proof.
  pose proof (final_outcome_stable_sorted (H := Canonical.datetime_lib)
                (scan_client [] demo_table) demo_input 3) as Hc.
  cbv zeta in Hc. destruct Hc as (Hlen & _ & Hsorted & _).
  split; [exact Hlen|exact Hsorted].
Defined.

(** Stage 6 raises, stage 7 answers with the three admissions of the ward;
    on the demonstration table the row that stage 1 found before the
    failure is still held when the loop ends. *)
Lemma stage_failure_contained_witness :
  demo_trace [6%nat] ward_table 3 !! 5%nat
  = Some (_step_6 (normalise demo_input) ∅)
  ∧ scan_client [6%nat] ward_table (_step_6 (normalise demo_input) ∅) = None
  ∧ is_Some (demo_trace [6%nat] ward_table 3 !! 6%nat)
  ∧ (λ r, (row_id r, result_step r)) <$> demo_search [6%nat] ward_table 3
    = [(101, "STEP_7"); (102, "STEP_7"); (103, "STEP_7")]
  ∧ row_id <$> rows_before (scan_client [6%nat] demo_table)
                 (demo_trace [6%nat] demo_table 10) 5
    = [201]
  ∧ rows_before (scan_client [6%nat] demo_table)
      (demo_trace [6%nat] demo_table 10) 5
    `prefix_of` accumulated (H := Canonical.datetime_lib)
                  (scan_client [6%nat] demo_table) demo_input 10.
Proof.
  unfold demo_trace, demo_search, normalise.
  pose proof (stage_failure_contained (H := Canonical.datetime_lib)
                (scan_client [6%nat] ward_table) demo_input 3)
    as (_ & _ & Hgen & Hex).
  pose proof (stage_failure_contained (H := Canonical.datetime_lib)
                (scan_client [6%nat] demo_table) demo_input 10)
    as (_ & _ & Hheld & _).
  cbv zeta in Hgen, Hex, Hheld.
  assert (search_trace (H := Canonical.datetime_lib)
            (scan_client [6%nat] ward_table) demo_input 3 !! 5%nat
          = Some (_step_6 (_calculate_age_and_los
                             (H := Canonical.datetime_lib) demo_input) ∅))
    as Hsix by (vm_compute; reflexivity).
  assert (scan_client [6%nat] ward_table
            (_step_6 (_calculate_age_and_los
                        (H := Canonical.datetime_lib) demo_input) ∅)
          = None) as Hfail by (vm_compute; reflexivity).
  assert (search_trace (H := Canonical.datetime_lib)
            (scan_client [6%nat] demo_table) demo_input 10 !! 5%nat
          = Some (_step_6 (_calculate_age_and_los
                             (H := Canonical.datetime_lib) demo_input)
                    (list_to_set [201])))
    as Hsix' by (vm_compute; reflexivity).
  assert (scan_client [6%nat] demo_table
            (_step_6 (_calculate_age_and_los
                        (H := Canonical.datetime_lib) demo_input)
               (list_to_set [201]))
          = None) as Hfail' by (vm_compute; reflexivity).
  split_and!; [exact Hsix|exact Hfail| | |vm_compute; reflexivity|].
  - destruct (Hgen 5%nat _ Hsix Hfail) as (_ & _ & Hnext). apply Hnext. lia.
  - destruct (Hex ((λ a, {| row_base := a; result_step := "STEP_7" |})
                     <$> take 3 ward_table)) as [Hout _].
    + reflexivity.
    + intros k f Hk Hf. unfold steps in Hf.
      do 5 (destruct k as [|k];
            [cbn in Hf; injection Hf as <-; vm_compute; reflexivity|]).
      lia.
    + exact Hfail.
    + vm_compute; reflexivity.
    + reflexivity.
    + repeat constructor.
    + rewrite Hout. vm_compute; reflexivity.
  - destruct (Hheld 5%nat _ Hsix' Hfail') as (_ & Hprefix & _).
    exact Hprefix.
Defined.

(** The two ages of the specification: the day before the twentieth
    birthday and the birthday itself, in both accepted date forms. *)
Example age_examples :
  calculated_age (normalise (request [ ("admission_date", "2020-03-09 00:00:00");
                                       ("birthdate", "2000-03-10") ] [] []))
  = 19
  ∧ calculated_age (normalise (request [ ("admission_date", "2020-03-10 00:00:00");
                                         ("birthdate", "2000-03-10") ] [] []))
    = 20
  ∧ calculated_age (normalise (request [ ("admission_date", "2020-03-09T23:59:59Z");
                                         ("birthdate", "2000-03-10") ] [] []))
    = 19.
Proof. by vm_compute. Qed.

Lemma age_at_admission_witness :
  calculated_age (normalise birthday_eve) = 2020 - 2000 - 1.
Proof.
  apply (age_at_admission (H := Canonical.datetime_lib) birthday_eve
           "2020-03-09 00:00:00" "2000-03-10"
           admitted_2020_03_09 born_2000_03_10);
    [by vm_compute..|left; by vm_compute].
Defined.

(** The admission and birth dates are readable, the discharge date is a
    bare date, which [parse_datetime] does not read: the age falls back
    to 0 although the formula gives 19. *)
Lemma age_lost_with_unreadable_discharge :
  let input_data :=
    request [ ("admission_date", "2020-03-09 00:00:00");
              ("birthdate", "2000-03-10");
              ("discharge_date", "2020-03-12") ] [] [] in
  parse_datetime (H := Canonical.datetime_lib) "2020-03-09 00:00:00"
  = Some admitted_2020_03_09
  ∧ strptime (PyDatetime := Canonical.datetime_lib) "2000-03-10" "%Y-%m-%d"
    = Some born_2000_03_10
  ∧ age_between admitted_2020_03_09 born_2000_03_10 = 19
  ∧ calculated_age (normalise input_data) = 0.
Proof. by vm_compute. Qed.

Lemma stay_duration_witness :
  calculated_los (normalise three_day_stay) = LosDays 3
  ∧ calculated_los (normalise demo_input) = LosEmpty.
Proof.
  split.
  - apply (proj1 (stay_duration (H := Canonical.datetime_lib) three_day_stay
                    "2021-01-01 08:00:00" "1990-06-15"
                    {| year := 2021; month := 1; day := 1;
                       hour := 8; minute := 0; second := 0 |}
                    {| year := 1990; month := 6; day := 15;
                       hour := 0; minute := 0; second := 0 |}
                    {| year := 2021; month := 1; day := 4;
                       hour := 7; minute := 0; second := 0 |}));
      by vm_compute.
  - apply (proj2 (stay_duration (H := Canonical.datetime_lib) demo_input
                    "" "" admitted_2020_03_09 admitted_2020_03_09
                    admitted_2020_03_09)).
    by vm_compute.
Defined.

(** Both dates of the stay are readable, the birth date is missing: the
    stay is the empty string although the days differ by 3. *)
Lemma stay_lost_without_birthdate :
  let input_data :=
    request [ ("admission_date", "2021-01-01 00:00:00");
              ("discharge_date", "2021-01-04 00:00:00") ] [] [] in
  parse_datetime (H := Canonical.datetime_lib)
    (get input_data "admission_date")
  = Some {| year := 2021; month := 1; day := 1;
            hour := 0; minute := 0; second := 0 |}
  ∧ parse_datetime (H := Canonical.datetime_lib)
      (get input_data "discharge_date")
    = Some {| year := 2021; month := 1; day := 4;
              hour := 0; minute := 0; second := 0 |}
  ∧ toordinal {| year := 2021; month := 1; day := 4;
                 hour := 0; minute := 0; second := 0 |}
    - toordinal {| year := 2021; month := 1; day := 1;
                   hour := 0; minute := 0; second := 0 |} = 3
  ∧ calculated_los (normalise input_data) = LosEmpty.
Proof. vm_compute. repeat split. Qed.

Example exact_order_sensitive :
  eval_b (icd10_filter codes_ab exact) stored_ab = true
  ∧ eval_b (icd10_filter codes_ab exact) stored_ba = false
  ∧ eval_b (icd10_filter codes_ba exact) stored_ab = false
  ∧ eval_b (icd10_filter codes_ba exact) stored_ba = true.
Proof. vm_compute. repeat split. Qed.

Lemma exact_filter_joined_witness :
  plain_codes (icd10 codes_ab)
  ∧ eval_b (icd10_filter codes_ab exact) stored_ab = true
  ∧ eval_b (icd10_filter codes_ba exact) stored_ab = false.
Proof.
  pose proof (exact_filter_joined codes_ab codes_ba stored_ab)
    as (Hacc & _ & Hdiff & _).
  assert (plain_codes (icd10 codes_ab)) as Hab' by repeat constructor.
  assert (plain_codes (icd10 codes_ba)) as Hba' by repeat constructor.
  assert (eval_b (icd10_filter codes_ab exact) stored_ab = true) as Hab.
  { apply Hacc; [discriminate|exact Hab'|]. vm_compute; reflexivity. }
  split_and!; [exact Hab'|exact Hab|].
  apply Hdiff;
    [discriminate|discriminate|exact Hab'|exact Hba'| | |discriminate
    |exact Hab].
  - repeat constructor.
  - repeat constructor.
Defined.

(** The stored field holds the two codes joined by a bare semicolon: it is
    the input list joined with [;], and the exact filter rejects it. *)
Lemma exact_filter_rejects_bare_semicolon :
  icd10 codes_ab ≠ []
  ∧ col stored_bare DiseaseClassification = Py.join ";" (icd10 codes_ab)
  ∧ eval_b (icd10_filter codes_ab exact) stored_bare = false.
Proof. split; [discriminate|]. vm_compute. repeat split. Qed.

Example partial_score_example :
  (eval_n (icd10_score codes_plain mixed) stored_broad == 19 # 10)%Q
  ∧ (eval_n (icd9_score codes_plain mixed) stored_broad == 1)%Q.
Proof. vm_compute. repeat split. Qed.

Lemma partial_score_witness :
  (eval_n (icd10_score codes_plain mixed) stored_broad
   == count_score (icd10 codes_plain)
        (col stored_broad DiseaseClassification))%Q.
Proof.
  apply (partial_score codes_plain stored_broad mixed);
    [by right|repeat constructor..].
Defined.

Lemma score_counts_wildcard_match :
  substringb "J1_" (col stored_j18 DiseaseClassification) = false
  ∧ (eval_n (icd10_score codes_wild partial) stored_j18 == 1)%Q
  ∧ (count_score (icd10 codes_wild) (col stored_j18 DiseaseClassification)
     == 0)%Q
  ∧ ¬ (eval_n (icd10_score codes_wild partial) stored_j18
       == count_score (icd10 codes_wild)
            (col stored_j18 DiseaseClassification))%Q.
Proof. vm_compute. repeat split. discriminate. Qed.

Lemma request_gate_witness :
  (∃ e, unified_search (H := Canonical.datetime_lib)
          (scan_client [] demo_table) nothing_supplied = (Rejected e, []))
  ∧ (unified_search (H := Canonical.datetime_lib)
       (scan_client [] demo_table) code_only).2 !! 0%nat
    = Some (_step_1 (normalise (_extract_structured_data code_only))).
Proof.
  split.
  - apply (proj1 (request_gate (H := Canonical.datetime_lib)
                    (scan_client [] demo_table) nothing_supplied)).
    + intros k Hk. vm_compute. reflexivity.
    + reflexivity.
    + reflexivity.
  - destruct (proj2 (request_gate (H := Canonical.datetime_lib)
                       (scan_client [] demo_table) code_only))
      as [Heq Hfirst].
    + reflexivity.
    + vm_compute. split; discriminate.
    + left. exists "hospital_code". split; [|vm_compute; reflexivity].
      unfold validated_keys. set_solver.
    + rewrite Heq. exact Hfirst.
Defined.

(** The request carries a non-empty structured field, yet it is rejected
    and no stage query is sent, because it also carries a query. *)
Lemma query_blocks_structured_search :
  supplied query_and_code "hospital_code" = true
  ∧ unified_search (H := Canonical.datetime_lib)
      (scan_client [] demo_table) query_and_code
    = (Rejected "Simple query format not yet supported", []).
Proof. vm_compute. repeat split. Qed.


(** * Further properties *)

(** ** The driver *)


(** Property X1.  The outcome never holds more rows than [max_results];
    when [max_results] is zero or negative no stage query is sent and the
    outcome is empty. *)
Theorem outcome_size_bound `{PyDatetime}
    (client_query : Query → option (list Row))
    (input_data : InputData) (max_results : Z) :
  (length (search_similar_admissions client_query input_data max_results)
   ≤ Z.to_nat max_results)%nat
  ∧ (max_results ≤ 0 →
     search_trace client_query input_data max_results = []
     ∧ search_similar_admissions client_query input_data max_results = []).
Proof.
  assert (max_results ≤ 0 →
          search_trace client_query input_data max_results = []
          ∧ search_similar_admissions client_query input_data max_results = [])
    as Hzero.
  { intros Hn. unfold search_trace, search_similar_admissions.
    rewrite (no_query_without_demand _ _ _ Hn). split; [done|].
    simpl. unfold Py.slice_to.
    destruct (0 <=? max_results); by rewrite take_nil. }
  split; [|done].
  destruct (decide (max_results ≤ 0)) as [Hn|Hn].
  - destruct (Hzero Hn) as [_ ->]. simpl. lia.
  - apply outcome_length_le. lia.
Qed.

(** Property X2.  An outcome shorter than [max_results] is returned only
    after all seventeen stage queries have been sent. *)
Theorem short_outcome_after_full_cascade `{PyDatetime}
    (client_query : Query → option (list Row))
    (input_data : InputData) (max_results : Z) :
  Z.of_nat (length (search_similar_admissions client_query input_data
                      max_results)) < max_results →
  length (search_trace client_query input_data max_results) = 17%nat.
Proof.
  intros Hshort.
  destruct (search_spec client_query input_data max_results)
    as (_ & _ & [Hall|Hge]); [done|].
  exfalso. unfold search_similar_admissions in Hshort.
  rewrite sort_by_perm in Hshort.
  rewrite slice_to_nonneg in Hshort by lia.
  rewrite length_take in Hshort.
  fold (accumulated client_query input_data max_results) in Hshort. lia.
Qed.


(** ** The stage filters *)




Lemma any_suffix_here f s : f s = true → any_suffix f s = true.
Proof. intros Hf. by rewrite any_suffix_unfold, Hf. Qed.

Lemma any_suffix_later f c s :
  any_suffix f s = true → any_suffix f (String c s) = true.
Proof.
  intros Hf. rewrite any_suffix_unfold, Hf. apply orb_true_r.
Qed.

(** A text matches the pattern made of its own beginning and [%], whatever
    characters the beginning holds. *)
Lemma like_self p s : like (p +:+ "%") (p +:+ s) = true.
Proof.
  induction p as [|c p IH].
  - apply like_percent_end.
  - rewrite !append_cons. cbn [like].
    destruct (Ascii.eqb c "%").
    + by apply any_suffix_later, any_suffix_here.
    + by rewrite IH, Ascii.eqb_refl, orb_true_r.
Qed.


(** Unfolds the stage definitions down to their WHERE clauses. *)
Ltac unfold_steps :=
  cbv [_step_1 _step_2 _step_3 _step_4 _step_5 _step_6 _step_7 _step_8
       _step_9 _step_10 _step_11 _step_12 _step_13 _step_14 _step_15
       _step_16 _step_17];
  cbn [q_where].










(** ** The scores *)

Lemma like_matches_cons c codes s :
  like_matches (c :: codes) s
  = ((if like ("%" +:+ c +:+ "%") s then 1 else 0)
     + like_matches codes s)%nat.
Proof.
  unfold like_matches. rewrite filter_cons.
  destruct (like _ s); by case_decide.
Qed.

Lemma like_matches_le codes s : (like_matches codes s ≤ length codes)%nat.
Proof. apply length_filter. Qed.

Lemma eval_fold_like f codes acc a :
  (eval_n (fold_left NAdd (like_case f <$> codes) acc) a
   == eval_n acc a + inject_Z (Z.of_nat (like_matches codes (col a f))))%Q.
Proof.
  revert acc. induction codes as [|c codes IH]; intros acc.
  - simpl. unfold like_matches. simpl. ring.
  - simpl fold_left. rewrite IH.
    change (eval_n (NAdd ?x ?y) ?r) with (eval_n x r + eval_n y r)%Q.
    rewrite like_matches_cons, Nat2Z.inj_add, inject_Z_plus.
    unfold like_case. cbn [eval_n eval_b].
    destruct (like _ (col a f)); simpl; ring.
Qed.

Lemma eval_sum_like f codes a :
  (eval_n (sum_join (like_case f <$> codes)) a
   == inject_Z (Z.of_nat (like_matches codes (col a f))))%Q.
Proof.
  destruct codes as [|c codes]; [done|].
  simpl fmap. unfold sum_join. rewrite eval_fold_like.
  rewrite like_matches_cons, Nat2Z.inj_add, inject_Z_plus.
  unfold like_case. cbn [eval_n eval_b].
  destruct (like _ (col a f)); simpl; ring.
Qed.

Lemma eval_enhanced_score c codes f a :
  (eval_n (build_enhanced_score (c :: codes) f) a
   == inject_Z (Z.of_nat (like_matches (c :: codes) (col a f)))
      + (if bool_decide (length (c :: codes) < delimited_count (col a f))%nat
         then - (1 # 10) else 0))%Q.
Proof.
  unfold build_enhanced_score.
  change (eval_n (NAdd ?x ?y) ?r) with (eval_n x r + eval_n y r)%Q.
  by rewrite eval_sum_like, eval_code_count_penalty.
Qed.

Lemma partial_filter_matches f codes a :
  codes ≠ [] →
  eval_b (partial_filter f codes) a = true
  ↔ (1 ≤ like_matches codes (col a f))%nat.
Proof.
  intros Hne. destruct codes as [|c0 codes0]; [done|]. clear Hne.
  unfold partial_filter. cbn [eval_b].
  generalize (c0 :: codes0). intros codes.
  induction codes as [|c codes IH].
  - unfold like_matches. simpl. split; [done|lia].
  - rewrite fmap_cons. cbn [existsb]. rewrite like_matches_cons.
    rewrite orb_true_iff, IH. cbn [eval_b].
    destruct (like _ (col a f)); [split; [lia|auto]|].
    split; [intros [?|?]; [done|lia]|intros ?; right; lia].
Qed.

(** Property X8.  For any non-empty code list, wildcards included, the
    enhanced score of a row lies between -0.1 and the number of codes; the
    partial filter accepts the row exactly when its score is at least 0.9,
    and rejects it exactly when its score is at most 0. *)
Theorem enhanced_score_range (codes : list string) (f : column)
    (a : Admission) :
  codes ≠ [] →
  (- (1 # 10) <= eval_n (build_enhanced_score codes f) a)%Q
  ∧ (eval_n (build_enhanced_score codes f) a
     <= inject_Z (Z.of_nat (length codes)))%Q
  ∧ (eval_b (partial_filter f codes) a = true
     ↔ (9 # 10 <= eval_n (build_enhanced_score codes f) a)%Q)
  ∧ (eval_b (partial_filter f codes) a = false
     ↔ (eval_n (build_enhanced_score codes f) a <= 0)%Q).
Proof.
  intros Hne.
  pose proof (partial_filter_matches f codes a Hne) as Hf.
  destruct codes as [|c codes]; [done|].
  pose proof (like_matches_le (c :: codes) (col a f)) as Hle.
  set (m := like_matches (c :: codes) (col a f)) in *.
  assert (∀ x y : Q, (x == y)%Q → ∀ z, (z <= x ↔ z <= y)%Q) as Hl.
  { intros x y E z. by rewrite E. }
  assert (∀ x y : Q, (x == y)%Q → ∀ z, (x <= z ↔ y <= z)%Q) as Hr.
  { intros x y E z. by rewrite E. }
  pose proof (eval_enhanced_score c codes f a) as E. fold m in E.
  rewrite !(Hl _ _ E), !(Hr _ _ E).
  assert (eval_b (partial_filter f (c :: codes)) a = false ↔ m = 0%nat)
    as Hf'.
  { rewrite <- not_true_iff_false, Hf. lia. }
  rewrite Hf, Hf'. clear E Hf Hf' Hl Hr.
  simpl in Hle.
  case_bool_decide; unfold Qle; simpl; split_and!; try split; lia.
Qed.

Lemma append_assoc (s t u : string) : (s +:+ t) +:+ u = s +:+ t +:+ u.
Proof.
  induction s as [|c s IH]; [done|]. rewrite !append_cons. by rewrite IH.
Qed.

Lemma like_within c pre post :
  like ("%" +:+ c +:+ "%") (pre +:+ c +:+ post) = true.
Proof.
  change (like ("%" +:+ c +:+ "%") ?s) with (any_suffix (like (c +:+ "%")) s).
  induction pre as [|x pre IH].
  - change ("" +:+ ?x) with x. apply any_suffix_here. apply like_self.
  - rewrite append_cons. by apply any_suffix_later.
Qed.

Lemma join_holds_code c codes :
  c ∈ codes → ∃ pre post, Py.join "; " codes = pre +:+ c +:+ post.
Proof.
  induction codes as [|x codes IH]; [by intros ?%elem_of_nil|].
  rewrite join_cons. intros [->|Hc]%elem_of_cons.
  - by exists "", (join_rest codes).
  - destruct (IH Hc) as (pre & post & Hj).
    destruct codes as [|y codes]; [by apply elem_of_nil in Hc|].
    exists (x +:+ "; " +:+ pre), post.
    unfold join_rest. rewrite Hj. by rewrite !append_assoc.
Qed.

Lemma like_matches_all codes s :
  Forall (λ c, like ("%" +:+ c +:+ "%") s = true) codes →
  like_matches codes s = length codes.
Proof.
  induction 1 as [|c codes Hc _ IH]; [done|].
  rewrite like_matches_cons, Hc, IH. done.
Qed.

Lemma count_char_app c s t :
  count_char c (s +:+ t) = (count_char c s + count_char c t)%nat.
Proof.
  induction s as [|x s IH]; [done|].
  rewrite append_cons. cbn [count_char]. rewrite IH. lia.
Qed.

Lemma count_char_free c s :
  Py.contains_char c s = false → count_char c s = 0%nat.
Proof.
  induction s as [|x s IH]; [done|].
  intros [Hx Hs]%contains_char_cons. cbn [count_char].
  rewrite Hx, IH; done.
Qed.

Lemma join_semicolons c codes :
  Forall semicolon_free (c :: codes) →
  count_char ";" (Py.join "; " (c :: codes)) = length codes.
Proof.
  revert c. induction codes as [|y codes IH]; intros c Hall.
  - apply Forall_cons in Hall as [Hc _]. by apply count_char_free.
  - apply Forall_cons in Hall as [Hc Hall].
    change (Py.join "; " (c :: y :: codes))
      with (c +:+ "; " +:+ Py.join "; " (y :: codes)).
    rewrite !count_char_app, (count_char_free _ _ Hc), (IH _ Hall). done.
Qed.

Lemma exact_match_score codes f a :
  codes ≠ [] → Forall semicolon_free codes →
  col a f = Py.join "; " codes →
  (eval_n (build_enhanced_score codes f) a
   == inject_Z (Z.of_nat (length codes)))%Q.
Proof.
  intros Hne Hall Hcol. destruct codes as [|c codes]; [done|].
  rewrite eval_enhanced_score, Hcol.
  rewrite like_matches_all.
  - rewrite delimited_count_semicolons, (join_semicolons _ _ Hall).
    rewrite bool_decide_eq_false_2 by (simpl; lia). ring.
  - apply Forall_forall. intros x Hx.
    destruct (join_holds_code _ _ Hx) as (pre & post & ->).
    apply like_within.
Qed.

(** Property X9.  In the mixed mode (stage 15) the procedure filter is the
    exact one while the procedure score is the enhanced one: for codes
    that hold no semicolon, quote or backslash, every row that passes the
    filter has the score [len(icd9)], so the leading sort key
    [icd9_match_count DESC] of stage 15 is the same for all its rows. *)
Theorem mixed_procedure_score_constant (d : InputData) (a : Admission) :
  icd9 d ≠ [] →
  Forall semicolon_free (icd9 d) →
  plain_codes (icd9 d) →
  eval_b (icd9_filter d mixed) a = true →
  (eval_n (icd9_score d mixed) a
   == inject_Z (Z.of_nat (length (icd9 d))))%Q.
Proof.
  intros Hne Hall _ Hf.
  change (icd9_filter d mixed)
    with (exact_filter ProcedureClassification (icd9 d)) in Hf.
  change (icd9_score d mixed)
    with (build_enhanced_score (icd9 d) ProcedureClassification).
  apply exact_match_score; [done|done|].
  by apply exact_filter_spec.
Qed.

(** ** The normaliser *)

(** Property X11.  The normaliser reports a numeric length of stay only
    when the admission date, the birth date and a non-empty discharge date
    were all read; the stay is then the day difference of the two dates
    read, the age is the whole-year age, and both formatted dates are
    rewritten from the dates read. *)
Theorem known_stay_inversion `{PyDatetime} (input_data : InputData) (n : Z) :
  calculated_los (_calculate_age_and_los input_data) = LosDays n →
  ∃ sa sb sd a b dis,
    fields input_data !! "admission_date" = Some sa
    ∧ parse_datetime sa = Some a
    ∧ fields input_data !! "birthdate" = Some sb
    ∧ strptime sb "%Y-%m-%d" = Some b
    ∧ fields input_data !! "discharge_date" = Some sd
    ∧ sd ≠ ""
    ∧ parse_datetime sd = Some dis
    ∧ n = date_diff_days dis a
    ∧ calculated_age (_calculate_age_and_los input_data) = age_between a b
    ∧ formatted_admission_date (_calculate_age_and_los input_data)
      = strftime a "%Y-%m-%d %H:%M:%S"
    ∧ formatted_birth_date (_calculate_age_and_los input_data)
      = strftime b "%Y-%m-%d".
Proof.
  unfold _calculate_age_and_los, calculate_try.
  destruct (fields input_data !! "admission_date") as [sa|] eqn:Esa;
    [|done]. cbn [mbind option_bind].
  destruct (parse_datetime sa) as [a|] eqn:Ea; [|done].
  cbn [mbind option_bind].
  destruct (fields input_data !! "birthdate") as [sb|] eqn:Esb; [|done].
  cbn [mbind option_bind].
  destruct (strptime sb "%Y-%m-%d") as [b|] eqn:Eb; [|done].
  cbn [mbind option_bind].
  unfold get.
  destruct (fields input_data !! "discharge_date") as [[|c sd]|] eqn:Esd;
    simpl; [intros Hx; discriminate Hx| |intros Hx; discriminate Hx].
  destruct (parse_datetime (String c sd)) as [dis|] eqn:Ed;
    [|simpl; intros Hx; discriminate Hx].
  simpl. intros [= <-].
  exists sa, sb, (String c sd), a, b, dis. split_and!; try done.
  unfold age_between. destruct (pair_ltb _ _); lia.
Qed.

(** ** The formatter *)

Section FormatterFacts.
Context {V : Type}.
Implicit Types (row base vals : list V).

Lemma map_columns_snoc names x row :
  Api.map_columns (names ++ [x]) row
  = match row !! length names with
    | Some v => <[x := v]> (Api.map_columns names row)
    | None => Api.map_columns names row
    end.
Proof.
  unfold Api.map_columns. rewrite imap_app, foldl_app. simpl.
  by rewrite Nat.add_0_r.
Qed.

Lemma map_columns_absent names row name :
  name ∉ names → Api.map_columns names row !! name = None.
Proof.
  induction names as [|x names IH] using rev_ind; intros Hn; [done|].
  apply not_elem_of_app in Hn as [Hn Hx].
  rewrite map_columns_snoc. destruct (row !! length names); [|by apply IH].
  rewrite lookup_insert_ne; [by apply IH|]. set_solver.
Qed.

Lemma map_columns_lookup names row j name :
  NoDup names → names !! j = Some name →
  Api.map_columns names row !! name = row !! j.
Proof.
  induction names as [|x names IH] using rev_ind; intros Hnd Hj; [done|].
  apply NoDup_app in Hnd as (Hnd & Hx & _).
  rewrite map_columns_snoc.
  apply lookup_snoc_Some in Hj as [[Hlt Hj]|[-> ->]].
  - assert (x ≠ name) as Hne.
    { intros ->. apply (Hx name); [|set_solver].
      by apply list_elem_of_lookup_2 in Hj. }
    destruct (row !! length names);
      [rewrite lookup_insert_ne by done|]; by apply IH.
  - destruct (row !! length names) as [v|] eqn:E.
    + by rewrite lookup_insert_eq.
    + apply map_columns_absent. intros Hin. apply (Hx name Hin). set_solver.
Qed.

Lemma column_mapping_nodup : NoDup Api.column_mapping.
Proof.
  apply (bool_decide_unpack (NoDup Api.column_mapping)). by vm_compute.
Qed.

Lemma column_mapping_length : length Api.column_mapping = 30%nat.
Proof. done. Qed.

Lemma computed_keys_fresh name :
  name ∈ Api.column_mapping →
  name ≠ "age_diff" ∧ name ≠ "date_diff" ∧ name ≠ "result_step".
Proof.
  intros Hin.
  assert (∀ k, bool_decide (k ∈ Api.column_mapping) = false →
               name ≠ k) as Hk.
  { intros k Hk%bool_decide_eq_false ->. done. }
  split_and!; apply Hk; by vm_compute.
Qed.

Lemma from_end_snoc_1 (l : list V) x : Api.from_end (l ++ [x]) 1 = Some x.
Proof.
  unfold Api.from_end. rewrite length_app. simpl.
  rewrite decide_True by lia.
  rewrite lookup_app_r by lia.
  by replace (length l + 1 - 1 - length l)%nat with 0%nat by lia.
Qed.

Lemma from_end_snoc_S (l : list V) x k :
  (1 ≤ k ≤ length l)%nat →
  Api.from_end (l ++ [x]) (S k) = l !! (length l - k)%nat.
Proof.
  intros Hk. unfold Api.from_end. rewrite length_app. simpl.
  rewrite decide_True by lia.
  rewrite lookup_app_l by lia. f_equal. lia.
Qed.

Lemma format_document_computed base vals (tag : V) :
  length base = 30%nat → (2 ≤ length vals)%nat →
  ∃ a d,
    vals !! (length vals - 2)%nat = Some a
    ∧ vals !! (length vals - 1)%nat = Some d
    ∧ Api.format_document (base ++ vals ++ [tag])
      = <["result_step" := tag]>
          (<["date_diff" := d]>
             (<["age_diff" := a]>
                (Api.map_columns Api.column_mapping
                   (base ++ vals ++ [tag])))).
Proof.
  intros Hb Hv.
  destruct (lookup_lt_is_Some_2 vals (length vals - 2)) as [a Ha]; [lia|].
  destruct (lookup_lt_is_Some_2 vals (length vals - 1)) as [d Hd]; [lia|].
  exists a, d. split_and!; [done|done|].
  unfold Api.format_document. rewrite column_mapping_length.
  rewrite !length_app. simpl length.
  rewrite decide_True by lia.
  rewrite drop_app_length' by done. rewrite length_app. simpl length.
  rewrite decide_True by lia.
  rewrite from_end_snoc_1, !from_end_snoc_S by lia.
  by rewrite Ha, Hd.
Qed.

End FormatterFacts.

Lemma stage_select_names i f data found :
  steps !! i = Some f →
  let names := select_names (f data found) in
  (2 ≤ length names)%nat
  ∧ ((names !! (length names - 2)%nat = Some "age_diff"
      ∧ names !! (length names - 1)%nat = Some "date_diff")
     ↔ (i < 4)%nat)
  ∧ ((4 ≤ i < 14)%nat →
     names !! (length names - 1)%nat = Some "gender_priority")
  ∧ ((14 ≤ i)%nat →
     names !! (length names - 2)%nat = Some "date_diff"
     ∧ names !! (length names - 1)%nat = Some "los_diff").
Proof.
  intros Hf. unfold steps in Hf.
  assert (∀ data, item_name (los_diff data) = "los_diff") as Hlos.
  { intros data'. unfold los_diff, _get_los_diff_calculation.
    by destruct (calculated_los data'). }
  do 17 (destruct i as [|i];
    [ cbn in Hf; injection Hf as <-; unfold select_names; unfold_steps;
      cbn [q_select fmap list_fmap item_name age_diff date_diff
           gender_priority admission_type_priority doctor_priority
           payer_name_priority payer_type_priority hospital_priority
           region_priority archetype_priority priority length];
      rewrite ?Hlos; cbn [length Nat.sub lookup list_lookup];
      split_and!; [lia| |intros; try lia; done|intros; try lia; done];
      split; [intros [??]; try lia; done|intros; try lia; done]
    | cbn in Hf ]).
  done.
Qed.

(** Property X12.  Every key of the ORDER BY clause of each of the
    seventeen stage queries is an alias of its SELECT list. *)
Theorem order_keys_are_selected (i : nat)
    (f : ProcessedData → gset Z → Query)
    (data : ProcessedData) (found : gset Z) (key : string) (dir : direction) :
  steps !! i = Some f →
  (key, dir) ∈ q_order_by (f data found) →
  key ∈ select_names (f data found).
Proof.
  intros Hf. unfold steps in Hf.
  assert (∀ data, item_name (los_diff data) = "los_diff") as Hlos.
  { intros data'. unfold los_diff, _get_los_diff_calculation.
    by destruct (calculated_los data'). }
  do 17 (destruct i as [|i];
    [ cbn in Hf; injection Hf as <-; unfold select_names; unfold_steps;
      cbn [q_select q_order_by asc app fmap list_fmap item_name age_diff
           date_diff gender_priority admission_type_priority
           doctor_priority payer_name_priority payer_type_priority
           hospital_priority region_priority archetype_priority priority];
      rewrite ?Hlos; intros Hk;
      repeat (apply elem_of_cons in Hk as [[= -> _]|Hk];
              [repeat first [apply list_elem_of_here
                            |apply list_elem_of_further]|]);
      by apply elem_of_nil in Hk
    | cbn in Hf ]).
  done.
Qed.

(** Property X13.  Formatting a tuple of a stage query: thirty table
    columns, the computed columns of the SELECT list, and the stage tag.
    The document holds the tag under [result_step] and each table column
    under its name; under [age_diff] and [date_diff] it holds the last two
    computed columns.  These are the columns named [age_diff] and
    [date_diff] for the stages 1 to 4 only: for the stages 5 to 14 the key
    [date_diff] holds [gender_priority], and for the stages 15 to 17 the
    keys hold [date_diff] and [los_diff]. *)
Theorem formatted_difference_labels {V : Type}
    (i : nat) (f : ProcessedData → gset Z → Query)
    (data : ProcessedData) (found : gset Z)
    (base vals : list V) (tag : V) :
  steps !! i = Some f →
  length base = 30%nat →
  length vals = length (q_select (f data found)) →
  let names := select_names (f data found) in
  let document := Api.format_document (base ++ vals ++ [tag]) in
  document !! "result_step" = Some tag
  ∧ (∀ j name, Api.column_mapping !! j = Some name →
       document !! name = base !! j)
  ∧ is_Some (document !! "age_diff")
  ∧ is_Some (document !! "date_diff")
  ∧ document !! "age_diff" = vals !! (length vals - 2)%nat
  ∧ document !! "date_diff" = vals !! (length vals - 1)%nat
  ∧ ((names !! (length vals - 2)%nat = Some "age_diff"
      ∧ names !! (length vals - 1)%nat = Some "date_diff")
     ↔ (i < 4)%nat)
  ∧ ((4 ≤ i < 14)%nat →
     names !! (length vals - 1)%nat = Some "gender_priority")
  ∧ ((14 ≤ i)%nat →
     names !! (length vals - 2)%nat = Some "date_diff"
     ∧ names !! (length vals - 1)%nat = Some "los_diff").
Proof.
  intros Hf Hb Hv names document.
  destruct (stage_select_names i f data found Hf) as (Hlen & Hiff & H5 & H15).
  fold names in Hlen, Hiff, H5, H15.
  assert (length names = length vals) as Hn.
  { unfold names, select_names. by rewrite length_fmap. }
  rewrite Hn in Hlen, Hiff, H5, H15.
  destruct (format_document_computed base vals tag Hb Hlen)
    as (a & d & Ha & Hd & Hdoc).
  fold document in Hdoc.
  assert (document !! "age_diff" = Some a) as Hage.
  { rewrite Hdoc. rewrite !lookup_insert_ne by done.
    by rewrite lookup_insert_eq. }
  assert (document !! "date_diff" = Some d) as Hdate.
  { rewrite Hdoc. rewrite lookup_insert_ne by done.
    by rewrite lookup_insert_eq. }
  split_and!;
    [ | |by rewrite Hage|by rewrite Hdate|by rewrite Hage|by rewrite Hdate
    |done|done|done ].
  - rewrite Hdoc. by rewrite lookup_insert_eq.
  - intros j name Hj.
    destruct (computed_keys_fresh name) as (H1 & H2 & H3).
    { by apply list_elem_of_lookup_2 in Hj. }
    rewrite Hdoc, !lookup_insert_ne by done.
    rewrite (map_columns_lookup _ _ j) by (done || apply column_mapping_nodup).
    apply lookup_app_l. apply lookup_lt_Some in Hj.
    rewrite column_mapping_length in Hj. lia.
Qed.

(** Property X14.  A document has no other keys than the names of
    [column_mapping] whose position exists in the tuple and, for a tuple of
    at least 33 columns, [age_diff], [date_diff] and [result_step]. *)
Theorem formatted_document_keys {V : Type} (row : list V) (name : string) :
  is_Some (Api.format_document row !! name) →
  (∃ j, Api.column_mapping !! j = Some name ∧ (j < length row)%nat)
  ∨ (name ∈ ["age_diff"; "date_diff"; "result_step"]
     ∧ (33 ≤ length row)%nat).
Proof.
  assert (is_Some (Api.map_columns Api.column_mapping row !! name) →
          ∃ j, Api.column_mapping !! j = Some name ∧ (j < length row)%nat)
    as Hbase.
  { intros Hs.
    destruct (decide (name ∈ Api.column_mapping)) as [Hin|Hout].
    - apply list_elem_of_lookup in Hin as [j Hj]. exists j. split; [done|].
      rewrite (map_columns_lookup _ _ j) in Hs
        by (done || apply column_mapping_nodup).
      by apply lookup_lt_is_Some.
    - rewrite map_columns_absent in Hs by done. by destruct Hs. }
  unfold Api.format_document. rewrite column_mapping_length.
  case_decide as Hlen; [|by left; apply Hbase].
  rewrite length_drop.
  case_decide as Hrem; [|by left; apply Hbase].
  destruct (Api.from_end _ 3); [|by left; apply Hbase].
  destruct (Api.from_end _ 2); [|by left; apply Hbase].
  destruct (Api.from_end _ 1); [|by left; apply Hbase].
  rewrite !lookup_insert_is_Some'.
  intros [<-|[<-|[<-|Hs]]]; [right|right|right|left; by apply Hbase];
    (split; [|lia]).
  - do 2 apply list_elem_of_further. apply list_elem_of_here.
  - apply list_elem_of_further, list_elem_of_here.
  - apply list_elem_of_here.
Qed.

(** ** The controller *)

Lemma schema_accepts_criteria payload :
  schema_accepts payload = true → supplied_query payload = false →
  any_values (_extract_structured_data payload) = true.
Proof.
  intros Hs Hq. unfold schema_accepts, validate_unified_fields in Hs.
  rewrite Hq in Hs. apply andb_true_iff in Hs as [Hv _].
  apply negb_true_iff, andb_false_iff in Hv as [Hv|Hv]; [done|].
  apply negb_false_iff in Hv. apply any_values_supplied.
  apply orb_true_iff in Hv as [Hv|Hv]; [|by right; right].
  apply orb_true_iff in Hv as [Hv|Hv]; [|by right; left].
  left. apply existsb_exists in Hv as (k & Hk%list_elem_of_In & Hv).
  by exists k.
Qed.

(** Property X15.  Behind the schema validator the guard
    [if not any(structured_data.values())] of the controller never fires:
    a validated request without a free-text query has a non-empty
    structured field, so the controller does not answer
    ["No search criteria provided"]. *)
Theorem missing_criteria_branch_unreachable `{PyDatetime}
    (client_query : Query → option (list Row))
    (payload : UnifiedSearchRequest) :
  schema_accepts payload = true →
  (supplied_query payload = false →
   any_values (_extract_structured_data payload) = true)
  ∧ (unified_search_with_billing client_query payload).1
    ≠ Rejected "No search criteria provided".
Proof.
  intros Hs. split; [by apply schema_accepts_criteria|].
  unfold unified_search_with_billing.
  destruct (supplied_query payload) eqn:Eq; [done|].
  by rewrite (schema_accepts_criteria _ Hs Eq).
Qed.
(** Property X16.  A request whose search is run carries no free-text
    query, has [max_results] (3 when absent) between 1 and 20 and a
    non-empty field among those the validator lists; its outcome holds at
    most [max_results] rows, and between 1 and 17 stage queries were
    sent. *)
Theorem completed_search_bounds `{PyDatetime}
    (client_query : Query → option (list Row))
    (payload : UnifiedSearchRequest)
    (rows : list Row) (sent : list Query) :
  unified_search client_query payload = (Completed rows, sent) →
  supplied_query payload = false
  ∧ 1 ≤ default 3 (max_results payload) ≤ 20
  ∧ ((∃ k, k ∈ validated_keys ∧ supplied payload k = true)
     ∨ supplied_list (req_icd10 payload) = true
     ∨ supplied_list (req_icd9 payload) = true)
  ∧ Z.of_nat (length rows) ≤ default 3 (max_results payload)
  ∧ (1 ≤ length sent ≤ 17)%nat.
Proof.
  unfold unified_search.
  destruct (schema_accepts payload) eqn:Es; [|done].
  unfold unified_search_with_billing.
  destruct (supplied_query payload) eqn:Eq; [done|].
  rewrite (schema_accepts_criteria _ Es Eq). cbn [negb].
  intros [= <- <-].
  unfold schema_accepts in Es. apply andb_true_iff in Es as [Hv Hf].
  unfold field_constraints in Hf. apply andb_true_iff in Hf as [_ Hn].
  apply bool_decide_eq_true in Hn.
  split_and!; [done|lia|lia| | | |].
  - unfold validate_unified_fields in Hv. rewrite Eq in Hv.
    apply negb_true_iff, andb_false_iff in Hv as [Hv|Hv]; [done|].
    apply negb_false_iff in Hv.
    apply orb_true_iff in Hv as [Hv|Hv]; [|by right; right].
    apply orb_true_iff in Hv as [Hv|Hv]; [|by right; left].
    left. apply existsb_exists in Hv as (k & Hk%list_elem_of_In & Hv).
    by exists k.
  - pose proof (outcome_length_le client_query
                  (_extract_structured_data payload)
                  (default 3 (max_results payload))) as Hle. lia.
  - pose proof (first_query_sent client_query
                  (_extract_structured_data payload)
                  (default 3 (max_results payload))) as Hq.
    destruct (search_trace _ _ _); [|simpl; lia].
    discriminate Hq. lia.
  - pose proof (trace_length client_query
                  (_extract_structured_data payload)
                  (default 3 (max_results payload))) as Hle. lia.
Qed.

Lemma any_values_structured payload k :
  k ∈ structured_keys → supplied payload k = true →
  any_values (_extract_structured_data payload) = true.
Proof.
  intros Hk Hs. unfold any_values, supplied in *.
  destruct (strings payload !! k) as [s|] eqn:Es; [|done].
  apply orb_true_intro. left. apply orb_true_intro. left.
  apply (existsb_true _ _ s); [|done].
  apply list_elem_of_fmap. exists (k, s). split; [done|].
  apply elem_of_map_to_list. simpl.
  apply map_lookup_filter_Some. split; [done|]. simpl.
  split; [done|]. by destruct s.
Qed.

(** Property X17.  A request without a free-text query whose only
    non-empty structured fields are outside the validator's list (these are
    [admission_date], [discharge_date] and [surgery_nature]) is rejected by
    the schema, although the controller on its own would run the search
    for it. *)
Theorem unvalidated_criteria_rejected `{PyDatetime}
    (client_query : Query → option (list Row))
    (payload : UnifiedSearchRequest) (k : string) :
  supplied_query payload = false →
  k ∈ structured_keys →
  supplied payload k = true →
  (∀ k', k' ∈ validated_keys → supplied payload k' = false) →
  supplied_list (req_icd10 payload) = false →
  supplied_list (req_icd9 payload) = false →
  unified_search client_query payload
  = (Rejected "request validation failed", [])
  ∧ k ∈ ["admission_date"; "discharge_date"; "surgery_nature"]
  ∧ ∃ rows,
      (unified_search_with_billing client_query payload).1 = Completed rows.
Proof.
  intros Hq Hk Hs Hnone H10 H9. split_and!.
  - unfold unified_search, schema_accepts, validate_unified_fields.
    rewrite Hq, H10, H9, existsb_false by done. done.
  - assert (k ∉ validated_keys) as Hout.
    { intros Hin. specialize (Hnone k Hin). congruence. }
    unfold structured_keys in Hk. unfold validated_keys in Hout.
    repeat (apply elem_of_cons in Hk as [->|Hk];
      [ first [ solve [ exfalso; apply Hout;
                        repeat first [apply list_elem_of_here
                                     |apply list_elem_of_further] ]
              | solve [ repeat first [apply list_elem_of_here
                                     |apply list_elem_of_further] ] ] |]).
    by apply elem_of_nil in Hk.
  - unfold unified_search_with_billing. rewrite Hq.
    rewrite (any_values_structured _ _ Hk Hs). by eexists.
Qed.



(** ** The billing items *)

Lemma realtime_price_map_lookup priced item_id :
  Billing.realtime_price_map priced !! item_id
  = Billing.calculated_price
      <$> last (filter (λ rt_item, Billing.priced_id rt_item = item_id
                                   ∧ item_id ≠ "") priced).
Proof.
  induction priced as [|rt priced IH] using rev_ind; [done|].
  unfold Billing.realtime_price_map in *. rewrite foldl_snoc, filter_app.
  cbn zeta. destruct (Billing.priced_id rt) as [|c s] eqn:Eid.
  - cbn [Py.truthy]. rewrite IH.
    rewrite filter_cons_False, filter_nil, app_nil_r; [done|].
    intros [<- Hne]. done.
  - cbn [Py.truthy]. destruct (decide (String c s = item_id)) as [<-|Hne].
    + rewrite lookup_insert_eq.
      rewrite filter_cons_True, filter_nil by done.
      by rewrite last_snoc.
    + rewrite lookup_insert_ne by done. rewrite IH.
      rewrite filter_cons_False, filter_nil, app_nil_r; [done|].
      intros [Heq _]. by rewrite Eid in Heq.
Qed.

(** Property X19.  The billing items keep the number, the order and the
    details of the historical items.  The amount of an item is the
    calculated price of the last item of a successful pricing answer that
    has the same non-empty identifier, and the historical amount when there
    is none. *)
Theorem hybrid_billing_prices
    (real_time_pricing : option Billing.Pricing)
    (items : list Billing.SalesItem) :
  length (Billing.billing_items real_time_pricing items) = length items
  ∧ ∀ i historical_item,
      items !! i = Some historical_item →
      ∃ billing_item,
        Billing.billing_items real_time_pricing items !! i
        = Some billing_item
        ∧ Billing.admission_id billing_item
          = Billing.admission_id historical_item
        ∧ Billing.sales_item_id billing_item
          = Billing.sales_item_id historical_item
        ∧ Billing.item_type billing_item
          = Billing.item_type historical_item
        ∧ Billing.item_name billing_item
          = Billing.item_name historical_item
        ∧ Billing.quantity billing_item = Billing.quantity historical_item
        ∧ Billing.item_net_amount billing_item
          = match last (Billing.offers real_time_pricing
                          (Billing.sales_item_id historical_item)) with
            | Some rt_item => Billing.calculated_price rt_item
            | None => Billing.item_net_amount historical_item
            end.
Proof.
  unfold Billing.billing_items, Billing.offers.
  destruct real_time_pricing as [[ok priced]|]; cbn [Billing.success
    Billing.sales_items]; [destruct ok; cbn [andb]|];
    [destruct priced as [|rt priced]| |].
  2:{ generalize (rt :: priced). clear rt priced. intros priced.
      unfold Billing.hybrid_items. rewrite length_fmap. split; [done|].
      intros i h Hi. rewrite list_lookup_fmap, Hi. cbn [fmap option_fmap
        option_map]. eexists. split; [done|]. cbn.
      rewrite realtime_price_map_lookup.
      split_and!; try done. by destruct (last _). }
  all: split; [done|]; intros i h Hi; exists h; by rewrite ?filter_nil.
Qed.

(** * Further worked instances *)

(** The cascade on the coded table: each admission is found by the stage
    its codes allow. *)
Example coded_outcome :
  (λ r, (row_id r, result_step r)) <$> coded_search 10
  = [ (301, "STEP_1"); (302, "STEP_11"); (303, "STEP_15");
      (304, "STEP_16"); (305, "STEP_17") ].
Proof. vm_compute. reflexivity. Qed.

Lemma short_outcome_after_full_cascade_witness :
  length (demo_trace [] demo_table 10) = 17%nat.
Proof.
  unfold demo_trace.
  apply (short_outcome_after_full_cascade (H := Canonical.datetime_lib)
           (scan_client [] demo_table) demo_input 10).
  vm_compute. reflexivity.
Defined.






Lemma enhanced_score_range_witness :
  eval_b (partial_filter DiseaseClassification (icd10 codes_plain))
    stored_broad = true
  ↔ (9 # 10 <= eval_n (build_enhanced_score (icd10 codes_plain)
                         DiseaseClassification) stored_broad)%Q.
Proof.
  apply (enhanced_score_range (icd10 codes_plain) DiseaseClassification
           stored_broad).
  discriminate.
Defined.


Lemma mixed_procedure_score_constant_witness :
  (eval_n (icd9_score two_procedures mixed) stored_two_procedures
   == inject_Z (Z.of_nat (length (icd9 two_procedures))))%Q.
Proof.
  apply (mixed_procedure_score_constant two_procedures
           stored_two_procedures).
  - discriminate.
  - repeat constructor.
  - repeat constructor.
  - vm_compute. reflexivity.
Defined.

Lemma known_stay_inversion_witness :
  calculated_los (normalise three_day_stay) = LosDays 3
  ∧ ∃ a b dis,
      3 = date_diff_days dis a
      ∧ calculated_age (normalise three_day_stay) = age_between a b.
Proof.
  assert (calculated_los (normalise three_day_stay) = LosDays 3) as Hlos
    by (vm_compute; reflexivity).
  split; [exact Hlos|].
  destruct (known_stay_inversion (H := Canonical.datetime_lib)
              three_day_stay 3 Hlos)
    as (sa & sb & sd & a & b & dis & _ & _ & _ & _ & _ & _ & _
        & Hn & Hage & _).
  exists a, b, dis. split; [exact Hn|exact Hage].
Defined.

Lemma formatted_difference_labels_witness :
  Api.format_document
    (Api.column_mapping ++ ["30"; "12"; "4"; "1"] ++ ["STEP_5"])
  !! "age_diff" = Some "4"
  ∧ select_names (_step_5 (normalise demo_input) ∅) !! 2%nat
    = Some "los_diff".
Proof.
  destruct (formatted_difference_labels (V := string) 4 _step_5
              (normalise demo_input) ∅ Api.column_mapping
              ["30"; "12"; "4"; "1"] "STEP_5" eq_refl eq_refl eq_refl)
    as (_ & _ & _ & _ & Hage & _).
  split; [exact Hage|reflexivity].
Defined.

Lemma formatted_document_keys_witness :
  (∃ j, Api.column_mapping !! j = Some "AdmissionId"
        ∧ (j < length ["1001"])%nat)
  ∨ ("AdmissionId" ∈ ["age_diff"; "date_diff"; "result_step"]
     ∧ (33 ≤ length ["1001"])%nat).
Proof.
  apply (formatted_document_keys (V := string) ["1001"] "AdmissionId").
  exists "1001". vm_compute. reflexivity.
Defined.

Lemma completed_search_bounds_witness :
  (1 ≤ length (unified_search (H := Canonical.datetime_lib)
                 (scan_client [] demo_table) code_only).2 ≤ 17)%nat.
Proof.
  assert (unified_search (H := Canonical.datetime_lib)
            (scan_client [] demo_table) code_only
          = (Completed (search_similar_admissions
                          (H := Canonical.datetime_lib)
                          (scan_client [] demo_table)
                          (_extract_structured_data code_only) 3),
             search_trace (H := Canonical.datetime_lib)
               (scan_client [] demo_table)
               (_extract_structured_data code_only) 3)) as Heq.
  { assert (schema_accepts code_only = true) as Hs
      by (vm_compute; reflexivity).
    assert (any_values (_extract_structured_data code_only) = true) as Ha
      by (vm_compute; reflexivity).
    unfold unified_search. rewrite Hs.
    unfold unified_search_with_billing.
    change (supplied_query code_only) with false. cbv iota.
    rewrite Ha. reflexivity. }
  destruct (completed_search_bounds (H := Canonical.datetime_lib)
              (scan_client [] demo_table) code_only _ _ Heq)
    as (_ & _ & _ & _ & Hsent).
  rewrite Heq. exact Hsent.
Defined.


Lemma order_keys_are_selected_witness :
  "icd9_match_count" ∈ select_names (_step_15 (normalise coded_input) ∅).
Proof.
  apply (order_keys_are_selected 14 _step_15 (normalise coded_input) ∅
           "icd9_match_count" DESC).
  - reflexivity.
  - apply list_elem_of_here.
Defined.

Lemma missing_criteria_branch_unreachable_witness :
  schema_accepts code_only = true
  ∧ any_values (_extract_structured_data code_only) = true.
Proof.
  assert (schema_accepts code_only = true) as Hs
    by (vm_compute; reflexivity).
  split; [exact Hs|].
  apply (proj1 (missing_criteria_branch_unreachable
                  (H := Canonical.datetime_lib)
                  (scan_client [] demo_table) code_only Hs)).
  reflexivity.
Defined.

(** The admission date alone: the controller would search, the schema
    rejects. *)
Lemma unvalidated_criteria_rejected_witness :
  unified_search (H := Canonical.datetime_lib)
    (scan_client [] demo_table) admission_date_only
  = (Rejected "request validation failed", []).
Proof.
  apply (unvalidated_criteria_rejected (H := Canonical.datetime_lib)
           (scan_client [] demo_table) admission_date_only
           "admission_date").
  - reflexivity.
  - unfold structured_keys.
    do 10 apply list_elem_of_further. apply list_elem_of_here.
  - vm_compute. reflexivity.
  - intros k Hk. unfold validated_keys in Hk.
    repeat (apply elem_of_cons in Hk as [->|Hk];
            [vm_compute; reflexivity|]).
    by apply elem_of_nil in Hk.
  - reflexivity.
  - reflexivity.
Defined.
